(** * ei-eligibility-backend: the postal-code / economic-region lookup of server.js

    A shallow embedding of [server.js]: the freshness test, the two page
    extractions, the two cached tables with their upserts, and the
    [/scrape] handler with the region helper it calls.  The handler is
    written in a small state-and-exception monad whose state holds the two
    tables, the queries the connection has not finished yet, the clock and
    the log of what happened. *)

From Stdlib Require Import String Ascii List ZArith Lia Bool.
Import ListNotations.

Local Open Scope string_scope.
Local Open Scope Z_scope.

(** ** JavaScript values *)

(** The values the handler moves around: strings, dates (milliseconds since
    the epoch), [undefined], [null], objects (properties in insertion
    order) and arrays. *)
#[warnings="-register-all"]
Inductive jsval : Type :=
| Undefined
| Null
| Str (s : string)
| Date (ms : Z)
| Obj (props : list (string * jsval))
| Arr (items : list jsval).

Definition obj := list (string * jsval).

(** [o.k]: the value of property [k], [undefined] when [o] has none. *)
Fixpoint get_prop (o : obj) (k : string) : jsval :=
  match o with
  | [] => Undefined
  | (k', v) :: rest => if String.eqb k' k then v else get_prop rest k
  end.

(** [o.k = v]: overwrite in place, or add as the last property. *)
Fixpoint set_prop (o : obj) (k : string) (v : jsval) : obj :=
  match o with
  | [] => [(k, v)]
  | (k', v') :: rest =>
      if String.eqb k' k then (k', v) :: rest else (k', v') :: set_prop rest k v
  end.

Definition keys (o : obj) : list string := map fst o.

(** A value spliced into a template literal. *)
Definition template (v : jsval) : string :=
  match v with
  | Str s => s
  | Null => "null"
  | _ => "undefined"
  end.

(** A query parameter bound to a TEXT column: [undefined] and [null] are
    both sent as NULL. *)
Definition sql_text (v : jsval) : option string :=
  match v with
  | Str s => Some s
  | _ => None
  end.

(** What [JSON.stringify] keeps of a value, as [res.json] sends it: a
    property whose value is [undefined] is left out, [undefined] in an array
    goes out as [null].  A date goes out as its ISO text, which the
    milliseconds determine; the [Date] stands for that text. *)
Fixpoint json_of (v : jsval) : jsval :=
  match v with
  | Obj props =>
      Obj ((fix props_of (ps : list (string * jsval)) : list (string * jsval) :=
              match ps with
              | [] => []
              | (k, x) :: rest =>
                  match x with
                  | Undefined => props_of rest
                  | _ => (k, json_of x) :: props_of rest
                  end
              end) props)
  | Arr items =>
      Arr (map (fun x => match x with
                         | Undefined => Null
                         | _ => json_of x
                         end) items)
  | other => other
  end.

(** A TEXT column read back from the store. *)
Definition of_sql_text (c : option string) : jsval :=
  match c with
  | Some s => Str s
  | None => Null
  end.

(** ** Strings *)

(** A string stands for the UTF-8 bytes of the JavaScript string. *)

(** The white space of one byte: tab, line feed, vertical tab, form feed,
    carriage return, space. *)
Definition is_space (c : ascii) : bool :=
  let n := nat_of_ascii c in
  Nat.eqb n 32 || (Nat.leb 9 n && Nat.leb n 13).

(** Of two bytes: U+00A0. *)
Definition is_space2 (a b : ascii) : bool :=
  Nat.eqb (nat_of_ascii a) 194 && Nat.eqb (nat_of_ascii b) 160.

(** Of three bytes: U+1680, U+2000 to U+200A, U+2028, U+2029, U+202F,
    U+205F, U+3000, U+FEFF. *)
Definition is_space3 (a b c : ascii) : bool :=
  let x := nat_of_ascii a in
  let y := nat_of_ascii b in
  let z := nat_of_ascii c in
  (Nat.eqb x 225 && Nat.eqb y 154 && Nat.eqb z 128)
  || (Nat.eqb x 226 && Nat.eqb y 128
      && ((Nat.leb 128 z && Nat.leb z 138)
          || Nat.eqb z 168 || Nat.eqb z 169 || Nat.eqb z 175))
  || (Nat.eqb x 226 && Nat.eqb y 129 && Nat.eqb z 159)
  || (Nat.eqb x 227 && Nat.eqb y 128 && Nat.eqb z 128)
  || (Nat.eqb x 239 && Nat.eqb y 187 && Nat.eqb z 191).

Fixpoint trim_start (s : string) : string :=
  match s with
  | EmptyString => EmptyString
  | String a rest =>
      if is_space a then trim_start rest
      else
        match rest with
        | EmptyString => s
        | String b rest2 =>
            if is_space2 a b then trim_start rest2
            else
              match rest2 with
              | EmptyString => s
              | String c rest3 =>
                  if is_space3 a b c then trim_start rest3 else s
              end
        end
  end.

(** The whole of [s] is one white-space character. *)
Definition is_one_space (s : string) : bool :=
  match s with
  | String a EmptyString => is_space a
  | String a (String b EmptyString) => is_space2 a b
  | String a (String b (String c EmptyString)) => is_space3 a b c
  | _ => false
  end.

Fixpoint trim_end (s : string) : string :=
  match s with
  | EmptyString => EmptyString
  | String a rest =>
      let kept := String a (trim_end rest) in
      if is_one_space kept then EmptyString else kept
  end.

(** [s.trim()]: the white space and line terminators of ECMAScript, taken
    off both ends. *)
Definition trim (s : string) : string := trim_end (trim_start s).

(** [s.replace(' ', '')]: a string pattern is replaced at its first
    occurrence only. *)
Fixpoint replace_space (s : string) : string :=
  match s with
  | EmptyString => EmptyString
  | String c rest =>
      if Ascii.eqb c " "%char then rest else String c (replace_space rest)
  end.

Fixpoint has_space (s : string) : bool :=
  match s with
  | EmptyString => false
  | String c rest => Ascii.eqb c " "%char || has_space rest
  end.

(** ** Constants and the freshness test *)

Definition BASE_URL : string := "https://srv129.services.gc.ca/ei_regions/eng/".
Definition POSTAL_CODE_ENDPOINT : string := "postalcode.aspx?_code=".
Definition THIRTY_DAYS_IN_MS : Z := 30 * 24 * 60 * 60 * 1000.

(** [isDataStale], with the reading of [Date.now()] as its first argument and
    [new Date(retrievalDate).getTime()] as its second. *)
Definition isDataStale (now retrievalDate : Z) : bool :=
  (now - retrievalDate) >? THIRTY_DAYS_IN_MS.

(** ** Fetched pages *)

(** What the selectors of the two extractions see of a fetched document:
    its tables by [id], each with the rows of its body; a row is its [td]
    cells; a cell has its text and the anchors inside it. *)
Record Anchor : Type := { a_text : string; a_href : option string }.
Record Cell : Type := { cell_text : string; cell_anchors : list Anchor }.
Definition Row : Type := list Cell.
Definition Page : Type := list (string * list Row).

(** [$(`#${tableID} tbody tr`)] *)
Definition select_rows (tableID : string) (page : Page) : list Row :=
  flat_map (fun t => if String.eqb (fst t) tableID then snd t else []) page.

(** [$(cells[i]).text()]: the empty string when the row has no such cell. *)
Definition cell_text_at (cells : Row) (i : nat) : string :=
  match nth_error cells i with
  | Some c => cell_text c
  | None => ""
  end.

(** [$(cells[i]).find('a').text()]: the texts of all anchors, joined. *)
Definition anchor_text_at (cells : Row) (i : nat) : string :=
  match nth_error cells i with
  | Some c => String.concat "" (map a_text (cell_anchors c))
  | None => ""
  end.

(** [$(cells[i]).find('a').attr('href')]: of the first anchor, [undefined]
    when there is none or it has no [href]. *)
Definition anchor_href_at (cells : Row) (i : nat) : jsval :=
  match nth_error cells i with
  | Some c =>
      match cell_anchors c with
      | a :: _ => match a_href a with Some h => Str h | None => Undefined end
      | [] => Undefined
      end
  | None => Undefined
  end.

(** The body of the [.each] callback of [scrapeEconomicRegion]: eight
    assignments to the one working object. *)
Definition region_row_step (tableData : obj) (cells : Row) : obj :=
  let t := set_prop tableData "Province" (Str (trim (cell_text_at cells 0))) in
  let t := set_prop t "EconomicRegionCode" (Str (trim (cell_text_at cells 1))) in
  let t := set_prop t "EconomicRegionName" (Str (trim (cell_text_at cells 2))) in
  let t := set_prop t "UnemploymentRate" (Str (trim (cell_text_at cells 3))) in
  let t := set_prop t "InsuredHoursRequired" (Str (trim (cell_text_at cells 4))) in
  let t := set_prop t "MinWeeksPayable" (Str (trim (cell_text_at cells 5))) in
  let t := set_prop t "MaxWeeksPayable" (Str (trim (cell_text_at cells 6))) in
  set_prop t "BestWeeksRequired" (Str (trim (cell_text_at cells 7))).

(** The extraction of [scrapeEconomicRegion], after the page has arrived:
    [tableData] starts empty and every row of [#regions] is walked. *)
Definition extract_region (page : Page) : obj :=
  fold_left region_row_step (select_rows "regions" page) [].

(** The fields of one row, as the walk writes them into an empty object. *)
Definition region_fields (cells : Row) : obj := region_row_step [] cells.

(** ** The two tables *)

(** A row of [postal_code_data].  The four name columns are typed by what
    the handler binds to them (always a string); the locator may be NULL. *)
Module PostalRow.
Record t : Type := mk {
    postal_code : string;
    census_subdivision_name : string;
    common_name : string;
    census_division_name : string;
    ei_economic_region_name : string;
    ei_economic_region_url : option string;
    date_retrieved : Z
}.
End PostalRow.

(** A row of [economic_region_data]. *)
Module RegionRow.
Record t : Type := mk {
    economic_region_name : string;
    province : option string;
    economic_region_code : option string;
    unemployment_rate : option string;
    insured_hours_required : option string;
    min_weeks_payable : option string;
    max_weeks_payable : option string;
    best_weeks_required : option string;
    date_retrieved : Z
}.
End RegionRow.

(** A table is the list of its rows; that no two rows share a key is an
    invariant to be kept, not a property of the type. *)
Definition postal_keys (tbl : list PostalRow.t) : list string :=
  map PostalRow.postal_code tbl.
Definition region_keys (tbl : list RegionRow.t) : list string :=
  map RegionRow.economic_region_name tbl.

(** [SELECT * FROM postal_code_data WHERE postal_code = $1] *)
Definition select_postal (key : string) (tbl : list PostalRow.t) : list PostalRow.t :=
  filter (fun r => String.eqb (PostalRow.postal_code r) key) tbl.

(** [SELECT * FROM economic_region_data WHERE economic_region_name = $1] *)
Definition select_region (key : string) (tbl : list RegionRow.t) : list RegionRow.t :=
  filter (fun r => String.eqb (RegionRow.economic_region_name r) key) tbl.

(** [INSERT INTO postal_code_data ... ON CONFLICT (postal_code) DO UPDATE SET ...]:
    the six columns of the SET list are taken from the proposed row
    (EXCLUDED), the key column stays. *)
Fixpoint upsert_postal (excluded : PostalRow.t) (tbl : list PostalRow.t)
  : list PostalRow.t :=
  match tbl with
  | [] => [excluded]
  | old :: rest =>
      if String.eqb (PostalRow.postal_code old) (PostalRow.postal_code excluded)
      then PostalRow.mk (PostalRow.postal_code old)
             (PostalRow.census_subdivision_name excluded)
             (PostalRow.common_name excluded)
             (PostalRow.census_division_name excluded)
             (PostalRow.ei_economic_region_name excluded)
             (PostalRow.ei_economic_region_url excluded)
             (PostalRow.date_retrieved excluded) :: rest
      else old :: upsert_postal excluded rest
  end.

(** [INSERT INTO economic_region_data ... ON CONFLICT (economic_region_name)
    DO UPDATE SET ...]: eight columns in the SET list. *)
Fixpoint upsert_region (excluded : RegionRow.t) (tbl : list RegionRow.t)
  : list RegionRow.t :=
  match tbl with
  | [] => [excluded]
  | old :: rest =>
      if String.eqb (RegionRow.economic_region_name old)
                    (RegionRow.economic_region_name excluded)
      then RegionRow.mk (RegionRow.economic_region_name old)
             (RegionRow.province excluded)
             (RegionRow.economic_region_code excluded)
             (RegionRow.unemployment_rate excluded)
             (RegionRow.insured_hours_required excluded)
             (RegionRow.min_weeks_payable excluded)
             (RegionRow.max_weeks_payable excluded)
             (RegionRow.best_weeks_required excluded)
             (RegionRow.date_retrieved excluded) :: rest
      else old :: upsert_region excluded rest
  end.

(** The object the driver hands to the callback for a row: one property per
    column, in the order of the table's definition. *)
Definition postal_row_obj (r : PostalRow.t) : obj :=
  [ ("postal_code", Str (PostalRow.postal_code r));
    ("census_subdivision_name", Str (PostalRow.census_subdivision_name r));
    ("common_name", Str (PostalRow.common_name r));
    ("census_division_name", Str (PostalRow.census_division_name r));
    ("ei_economic_region_name", Str (PostalRow.ei_economic_region_name r));
    ("ei_economic_region_url", of_sql_text (PostalRow.ei_economic_region_url r));
    ("date_retrieved", Date (PostalRow.date_retrieved r)) ].

Definition region_row_obj (r : RegionRow.t) : obj :=
  [ ("economic_region_name", Str (RegionRow.economic_region_name r));
    ("province", of_sql_text (RegionRow.province r));
    ("economic_region_code", of_sql_text (RegionRow.economic_region_code r));
    ("unemployment_rate", of_sql_text (RegionRow.unemployment_rate r));
    ("insured_hours_required", of_sql_text (RegionRow.insured_hours_required r));
    ("min_weeks_payable", of_sql_text (RegionRow.min_weeks_payable r));
    ("max_weeks_payable", of_sql_text (RegionRow.max_weeks_payable r));
    ("best_weeks_required", of_sql_text (RegionRow.best_weeks_required r));
    ("date_retrieved", Date (RegionRow.date_retrieved r)) ].

(** ** Queries, errors, events *)

Inductive Query : Type :=
| SelectPostal (key : string)
| SelectPostalNull                   (* the same SELECT with NULL bound to $1 *)
| UpsertPostal (row : PostalRow.t)
| SelectRegion (key : string)
| UpsertRegion (row : RegionRow.t).

(** What a rejected promise or an [err] argument carries. *)
Inductive Error : Type :=
| DbError (q : Query)
| HttpError (url : string)
| TypeError.                         (* a method called on a value without it *)

(** The [postalCode] parameter as the handler finds it in [req.query]: a
    string, or a value that is no string and has no [replace]: [undefined]
    when the parameter is absent, an array or an object when it is repeated
    or bracketed.  [bound] is what the driver binds for such a value: NULL
    for [undefined], a text for an array or an object. *)
Inductive QueryParam : Type :=
| ParamString (s : string)
| ParamOther (bound : option string).

(** The two places that call [axios.get]. *)
Inductive FetchSite : Type := PostalPage | RegionPage.

(** A response: the status, and the value handed to [res.json]; [json_of]
    of it is what goes out. *)
Record Response : Type := { status : Z; body : jsval }.

Inductive Event : Type :=
| QueryIssued (q : Query)            (* [client.query] was called *)
| QueryDone (q : Query)              (* the store ran it *)
| QueryFailed (q : Query)            (* the store refused it *)
| ClockRead (now : Z)                (* [Date.now()] or [new Date()] *)
| HttpGet (site : FetchSite) (url : string)
| RegionLookup (regionName : string) (regionURL : jsval)
                                     (* [getEconomicRegionData] was called *)
| Responded (r : Response)
| UnhandledRejection (e : Error).

(** ** The world outside and the state inside *)

(** The collaborators: the clock (its n-th reading), the remote site
    ([None]: [axios.get] rejects) and the store's verdict on a query. *)
Record World : Type := {
  clock : nat -> Z;
  http_get : string -> option Page;
  db_rejects : Query -> bool
}.

Record State : Type := mkState {
  postal_code_data : list PostalRow.t;
  economic_region_data : list RegionRow.t;
  pending : list Query;     (* issued without a callback, not yet run *)
  ticks : nat;              (* clock readings taken so far *)
  response : option Response;
  trace : list Event
}.

Definition log (e : Event) (st : State) : State :=
  mkState (postal_code_data st) (economic_region_data st) (pending st)
          (ticks st) (response st) (trace st ++ [e]).

Definition set_pending (qs : list Query) (st : State) : State :=
  mkState (postal_code_data st) (economic_region_data st) qs
          (ticks st) (response st) (trace st).

(** The effect of a query on the tables. *)
Definition apply_query (q : Query) (st : State) : State :=
  match q with
  | UpsertPostal row =>
      mkState (upsert_postal row (postal_code_data st)) (economic_region_data st)
              (pending st) (ticks st) (response st) (trace st)
  | UpsertRegion row =>
      mkState (postal_code_data st) (upsert_region row (economic_region_data st))
              (pending st) (ticks st) (response st) (trace st)
  | SelectPostal _ | SelectPostalNull | SelectRegion _ => st
  end.

(** ** The monad of the handler *)

(** A computation ends normally, or with an exception (a rejected promise)
    looking for its handler, or with the process gone: server.js installs
    no listener for rejections nobody handles, and the runtime of the image
    (node 18) ends the process on one. *)
Inductive Result (A : Type) : Type :=
| Return (a : A)
| Throw (e : Error)
| Halt.

Arguments Return {A} a.
Arguments Throw {A} e.
Arguments Halt {A}.

Definition M (A : Type) : Type := State -> Result A * State.

Definition ret {A : Type} (a : A) : M A := fun st => (Return a, st).

Definition bind {A B : Type} (m : M A) (k : A -> M B) : M B :=
  fun st =>
    match m st with
    | (Return a, st') => k a st'
    | (Throw e, st') => (Throw e, st')
    | (Halt, st') => (Halt, st')
    end.

Definition throw {A : Type} (e : Error) : M A := fun st => (Throw e, st).

Definition try_catch {A : Type} (m : M A) (handler : Error -> M A) : M A :=
  fun st =>
    match m st with
    | (Throw e, st') => handler e st'
    | other => other
    end.

Notation "x <- m ;; k" := (bind m (fun x => k))
  (at level 61, m at next level, right associativity).
Notation "m ;;; k" := (bind m (fun _ => k))
  (at level 61, right associativity).

Section Handler.

Variable w : World.

Definition emit (e : Event) : M unit := fun st => (Return tt, log e st).

(** The connection runs the queries of its queue one at a time, in the order
    they were issued.  A refused query that was issued without a callback
    rejects a promise nobody holds. *)
Fixpoint settle_queue (qs : list Query) (st : State) : Result unit * State :=
  match qs with
  | [] => (Return tt, set_pending [] st)
  | q :: rest =>
      if db_rejects w q
      then (Halt, log (UnhandledRejection (DbError q))
                      (log (QueryFailed q) (set_pending rest st)))
      else settle_queue rest (log (QueryDone q) (apply_query q st))
  end.

Definition settle : M unit := fun st => settle_queue (pending st) st.

(** [client.query(text, values)] with no callback: queued, the promise
    dropped. *)
Definition client_query (q : Query) : M unit :=
  fun st => (Return tt, log (QueryIssued q) (set_pending (pending st ++ [q]) st)).

(** [client.query(text, values, callback)] for the two SELECTs: the callback
    runs once the queries before it and then this one have been run; it gets
    the error or the rows. *)
Definition client_query_postal (key : string) : M (Error + list PostalRow.t) :=
  emit (QueryIssued (SelectPostal key)) ;;;
  settle ;;;
  fun st =>
    if db_rejects w (SelectPostal key)
    then (Return (inl (DbError (SelectPostal key))), log (QueryFailed (SelectPostal key)) st)
    else (Return (inr (select_postal key (postal_code_data st))),
          log (QueryDone (SelectPostal key)) st).

(** The same SELECT with NULL bound: no key equals NULL, no row comes
    back. *)
Definition client_query_postal_null : M (Error + list PostalRow.t) :=
  emit (QueryIssued SelectPostalNull) ;;;
  settle ;;;
  fun st =>
    if db_rejects w SelectPostalNull
    then (Return (inl (DbError SelectPostalNull)), log (QueryFailed SelectPostalNull) st)
    else (Return (inr []), log (QueryDone SelectPostalNull) st).

Definition client_query_postal_param (postalCode : QueryParam)
  : M (Error + list PostalRow.t) :=
  match postalCode with
  | ParamString s => client_query_postal s
  | ParamOther (Some text) => client_query_postal text
  | ParamOther None => client_query_postal_null
  end.

Definition client_query_region (key : string) : M (Error + list RegionRow.t) :=
  emit (QueryIssued (SelectRegion key)) ;;;
  settle ;;;
  fun st =>
    if db_rejects w (SelectRegion key)
    then (Return (inl (DbError (SelectRegion key))), log (QueryFailed (SelectRegion key)) st)
    else (Return (inr (select_region key (economic_region_data st))),
          log (QueryDone (SelectRegion key)) st).

(** [await axios.get(url)] *)
Definition axios_get (site : FetchSite) (url : string) : M Page :=
  emit (HttpGet site url) ;;;
  match http_get w url with
  | Some page => ret page
  | None => throw (HttpError url)
  end.

(** [Date.now()] and [new Date()] *)
Definition date_now : M Z :=
  fun st => (Return (clock w (ticks st)),
             log (ClockRead (clock w (ticks st)))
                 (mkState (postal_code_data st) (economic_region_data st) (pending st)
                          (S (ticks st)) (response st) (trace st))).

(** [res.status(code).json(payload)] *)
Definition res_json (code : Z) (payload : jsval) : M unit :=
  fun st =>
    let r := {| status := code; body := payload |} in
    (Return tt,
     log (Responded r)
         (mkState (postal_code_data st) (economic_region_data st) (pending st)
                  (ticks st) (Some r) (trace st))).

(** [scrapeEconomicRegion] *)
Definition scrapeEconomicRegion (relativeURL : jsval) : M obj :=
  page <- axios_get RegionPage (BASE_URL ++ template relativeURL) ;;
  ret (extract_region page).

(** The [try] block of [getEconomicRegionData]: scrape, stamp, upsert. *)
Definition refreshEconomicRegion (regionName : string) (regionURL : jsval) : M obj :=
  try_catch
    (tableData <- scrapeEconomicRegion regionURL ;;
     now <- date_now ;;
     let econRegionData := set_prop tableData "date_retrieved" (Date now) in
     client_query (UpsertRegion
       (RegionRow.mk regionName
          (sql_text (get_prop econRegionData "Province"))
          (sql_text (get_prop econRegionData "EconomicRegionCode"))
          (sql_text (get_prop econRegionData "UnemploymentRate"))
          (sql_text (get_prop econRegionData "InsuredHoursRequired"))
          (sql_text (get_prop econRegionData "MinWeeksPayable"))
          (sql_text (get_prop econRegionData "MaxWeeksPayable"))
          (sql_text (get_prop econRegionData "BestWeeksRequired"))
          now)) ;;;
     ret econRegionData)
    (fun error => throw error).

(** [getEconomicRegionData]: [Return] is [resolve], [Throw] is [reject]. *)
Definition getEconomicRegionData (regionName : string) (regionURL : jsval) : M obj :=
  emit (RegionLookup regionName regionURL) ;;;
  r <- client_query_region regionName ;;
  match r with
  | inl err => throw err
  | inr rows =>
      match hd_error rows with
      | Some econRow =>
          now <- date_now ;;
          if negb (isDataStale now (RegionRow.date_retrieved econRow))
          then ret (region_row_obj econRow)
          else refreshEconomicRegion regionName regionURL
      | None => refreshEconomicRegion regionName regionURL
      end
  end.

Definition scrape_ok (record : obj) (details : obj) : M unit :=
  res_json 200
    (Obj [("data", Arr [Obj (set_prop record "EconomicRegionDetails" (Obj details))])]).

(** The branch of the handler that serves the stored postal row; the
    [await] stands outside any [try]. *)
Definition scrape_cached (postalRow : PostalRow.t) : M unit :=
  details <- getEconomicRegionData
               (PostalRow.ei_economic_region_name postalRow)
               (of_sql_text (PostalRow.ei_economic_region_url postalRow)) ;;
  scrape_ok (postal_row_obj postalRow) details.

(** The branch that scrapes the postal page: the [try] block and its
    [catch]. *)
Definition scrape_fetch (postalCode : string) : M unit :=
  try_catch
    (page <- axios_get PostalPage
               (BASE_URL ++ POSTAL_CODE_ENDPOINT ++ replace_space postalCode) ;;
     let cells : Row := hd [] (select_rows "table" page) in
     let PostalCode := trim (cell_text_at cells 0) in
     let CensusSubdivisionName := trim (cell_text_at cells 1) in
     let CommonName := trim (cell_text_at cells 2) in
     let CensusDivisionName := trim (cell_text_at cells 3) in
     let EIEconomicRegionName := trim (anchor_text_at cells 4) in
     let EIEconomicRegionURL := anchor_href_at cells 4 in
     now <- date_now ;;
     let postalData : obj :=
       [ ("PostalCode", Str PostalCode);
         ("CensusSubdivisionName", Str CensusSubdivisionName);
         ("CommonName", Str CommonName);
         ("CensusDivisionName", Str CensusDivisionName);
         ("EIEconomicRegionName", Str EIEconomicRegionName);
         ("EIEconomicRegionURL", EIEconomicRegionURL);
         ("date_retrieved", Date now) ] in
     client_query (UpsertPostal
       (PostalRow.mk postalCode CensusSubdivisionName CommonName
          CensusDivisionName EIEconomicRegionName
          (sql_text EIEconomicRegionURL) now)) ;;;
     details <- getEconomicRegionData EIEconomicRegionName EIEconomicRegionURL ;;
     scrape_ok postalData details)
    (fun error =>
       res_json 500 (Obj [("error", Str "Error scraping postal code data")])).

(** What follows when no fresh postal row was found.  The argument of the
    [console.log] before the [try] calls [postalCode.replace]: on a value
    without that method it throws, and no [try] is around it. *)
Definition scrape_miss (postalCode : QueryParam) : M unit :=
  match postalCode with
  | ParamString s => scrape_fetch s
  | ParamOther _ => throw TypeError
  end.

(** The callback of the first query of the handler. *)
Definition scrape_callback (postalCode : QueryParam) (r : Error + list PostalRow.t)
  : M unit :=
  match r with
  | inl err => res_json 500 (Obj [("error", Str "Database error")])
  | inr rows =>
      match hd_error rows with
      | Some postalRow =>
          now <- date_now ;;
          if negb (isDataStale now (PostalRow.date_retrieved postalRow))
          then scrape_cached postalRow
          else scrape_miss postalCode
      | None => scrape_miss postalCode
      end
  end.

(** A request finds the two tables as they are, the connection idle, and
    takes its own readings of the clock. *)
Definition idle (postal : list PostalRow.t) (region : list RegionRow.t) : State :=
  mkState postal region [] 0 None [].

(** [app.get('/scrape', ...)] for one request, from the tables it finds to
    the state in which nothing of it is left to run.  An exception that
    leaves the callback rejects a promise nobody holds; a query still queued
    when the response has gone out is run afterwards. *)
Definition scrape_request (postalCode : QueryParam)
  (postal : list PostalRow.t) (region : list RegionRow.t) : State :=
  match (r <- client_query_postal_param postalCode ;; scrape_callback postalCode r)
          (idle postal region) with
  | (Return _, st') => snd (settle st')
  | (Throw e, st') => log (UnhandledRejection e) st'
  | (Halt, st') => st'
  end.

(** The request whose [postalCode] parameter is a string. *)
Definition scrape (postalCode : string)
  (postal : list PostalRow.t) (region : list RegionRow.t) : State :=
  scrape_request (ParamString postalCode) postal region.

End Handler.

(** [a] stands in the log immediately before [b]. *)
Fixpoint followed_by (a b : Event) (l : list Event) : Prop :=
  match l with
  | x :: rest =>
      match rest with
      | y :: _ => (x = a /\ y = b) \/ followed_by a b rest
      | [] => False
      end
  | [] => False
  end.

(** ** Sample data *)

(** Milliseconds in [d] days, [h] hours, [m] minutes and [s] seconds. *)
Definition ms_of (d h m s : Z) : Z := (((d * 24 + h) * 60 + m) * 60 + s) * 1000.

Definition td (s : string) : Cell := {| cell_text := s; cell_anchors := [] |}.

Definition td_link (s href : string) : Cell :=
  {| cell_text := s; cell_anchors := [ {| a_text := s; a_href := Some href |} ] |}.

Definition ottawa_postal_page : Page :=
  [ ("table",
     [ [ td "K1A0A1"; td " Ottawa "; td "Ottawa"; td "Ottawa";
         td_link "Ottawa" "region/35.aspx" ] ]) ].

Definition ottawa_row : Row :=
  [ td "ON"; td "3520"; td "Ottawa"; td "5.6"; td "420"; td "14"; td "45";
    td "14-22" ].

Definition gatineau_row : Row :=
  [ td "QC"; td "2419"; td "Gatineau"; td "6.1"; td "665"; td "15"; td "38";
    td "14-20" ].

Definition ottawa_region_page : Page :=
  [ ("regions", [ gatineau_row; ottawa_row ]) ].

Fixpoint assoc_page (pages : list (string * Page)) (url : string) : option Page :=
  match pages with
  | [] => None
  | (u, p) :: rest => if String.eqb u url then Some p else assoc_page rest url
  end.

(** A world whose clock starts at [t0] and advances by one millisecond per
    reading, whose remote site serves [pages] and nothing else, and whose
    store refuses the queries picked by [rejects]. *)
Definition sample_world (t0 : Z) (pages : list (string * Page))
  (rejects : Query -> bool) : World :=
  {| clock := fun n => t0 + Z.of_nat n;
     http_get := assoc_page pages;
     db_rejects := rejects |}.

Definition ottawa_postal_url : string :=
  BASE_URL ++ POSTAL_CODE_ENDPOINT ++ "K1A0A1".
Definition ottawa_region_url : string := BASE_URL ++ "region/35.aspx".

Definition ottawa_pages : list (string * Page) :=
  [ (ottawa_postal_url, ottawa_postal_page);
    (ottawa_region_url, ottawa_region_page) ].

Definition ottawa_world : World := sample_world 1000 ottawa_pages (fun _ => false).

Definition is_select_region (q : Query) : bool :=
  match q with SelectRegion _ => true | _ => false end.

Definition is_select_postal (q : Query) : bool :=
  match q with SelectPostal _ | SelectPostalNull => true | _ => false end.

(** ** More sample data, and the two error responses *)

Definition ottawa_postal_row : PostalRow.t :=
  PostalRow.mk "K1A0A1" "Ottawa" "Ottawa" "Ottawa" "Ottawa"
    (Some "region/35.aspx") 900.

(** The remote site answers nothing. *)
Definition remote_down_world : World := sample_world 1000 [] (fun _ => false).

(** The postal page arrives without a table; nothing else is served. *)
Definition blank_postal_world : World :=
  sample_world 1000 [ (ottawa_postal_url, []) ] (fun _ => false).

(** The same, and the site also serves the locator spelled "undefined". *)
Definition blank_postal_lenient_world : World :=
  sample_world 1000
    [ (ottawa_postal_url, []); (BASE_URL ++ "undefined", ottawa_region_page) ]
    (fun _ => false).

(** The region page arrives without rows. *)
Definition blank_region_world : World :=
  sample_world 1000
    [ (ottawa_postal_url, ottawa_postal_page); (ottawa_region_url, []) ]
    (fun _ => false).

(** The store refuses every read of the region table. *)
Definition region_store_down_world : World :=
  sample_world 1000 ottawa_pages is_select_region.

(** The store refuses every read of the postal table. *)
Definition postal_store_down_world : World :=
  sample_world 1000 ottawa_pages is_select_postal.

Definition database_error : Response :=
  {| status := 500; body := Obj [("error", Str "Database error")] |}.

Definition scrape_error : Response :=
  {| status := 500;
     body := Obj [("error", Str "Error scraping postal code data")] |}.

(** The postal row is missing, or stale at the reading [now]. *)
Definition postal_miss (now : Z) (rows : list PostalRow.t) : Prop :=
  match hd_error rows with
  | Some postalRow => now - PostalRow.date_retrieved postalRow > THIRTY_DAYS_IN_MS
  | None => True
  end.

Definition region_miss (now : Z) (rows : list RegionRow.t) : Prop :=
  match hd_error rows with
  | Some econRow => now - RegionRow.date_retrieved econRow > THIRTY_DAYS_IN_MS
  | None => True
  end.

Definition ottawa_region_row : RegionRow.t :=
  RegionRow.mk "Ottawa" (Some "ON") (Some "3520") (Some "5.6") (Some "420")
    (Some "14") (Some "45") (Some "14-22") 950.

Definition stale_region_row : RegionRow.t :=
  RegionRow.mk "Ottawa" (Some "ON") (Some "3520") (Some "5.0") (Some "420")
    (Some "14") (Some "45") (Some "14-22") (1000 - ms_of 31 0 0 0).

(** ** Counting events *)

Definition count_events (p : Event -> bool) (l : list Event) : nat :=
  length (filter p l).

Definition is_fetch (site : FetchSite) (e : Event) : bool :=
  match e, site with
  | HttpGet PostalPage _, PostalPage => true
  | HttpGet RegionPage _, RegionPage => true
  | _, _ => false
  end.

Definition is_postal_upsert (e : Event) : bool :=
  match e with QueryIssued (UpsertPostal _) => true | _ => false end.

Definition is_region_upsert (e : Event) : bool :=
  match e with QueryIssued (UpsertRegion _) => true | _ => false end.

Definition is_region_lookup (e : Event) : bool :=
  match e with RegionLookup _ _ => true | _ => false end.

Definition is_response (e : Event) : bool :=
  match e with Responded _ => true | _ => false end.

Definition is_clock_read (e : Event) : bool :=
  match e with ClockRead _ => true | _ => false end.

(** ** The query parameter and the record sent *)

(** The property names of the one record in the [data] array of a body. *)
Definition record_keys (b : jsval) : list string :=
  match b with
  | Obj [("data", Arr [Obj record])] => keys record
  | _ => []
  end.

(** What the driver binds to [$1] of the postal SELECT for a parameter, and
    the query that makes. *)
Definition param_key (postalCode : QueryParam) : option string :=
  match postalCode with
  | ParamString s => Some s
  | ParamOther bound => bound
  end.

Definition param_select (postalCode : QueryParam) : Query :=
  match param_key postalCode with
  | Some key => SelectPostal key
  | None => SelectPostalNull
  end.

(** The rows the postal SELECT gives for a parameter. *)
Definition param_rows (postalCode : QueryParam) (postal : list PostalRow.t)
  : list PostalRow.t :=
  match param_key postalCode with
  | Some key => select_postal key postal
  | None => []
  end.

(** ** Keyed tables *)

(** What the two upserts share: a key column, and a SET list that takes every
    other column from the proposed row. *)
Section KeyedTable.

Variable A : Type.
Variable key : A -> string.
Variable merge : A -> A -> A.

Fixpoint upsert_by (excluded : A) (tbl : list A) : list A :=
  match tbl with
  | [] => [excluded]
  | old :: rest =>
      if String.eqb (key old) (key excluded)
      then merge old excluded :: rest
      else old :: upsert_by excluded rest
  end.

Definition select_by (k : string) (tbl : list A) : list A :=
  filter (fun r => String.eqb (key r) k) tbl.

End KeyedTable.

Arguments upsert_by {A} key merge excluded tbl.
Arguments select_by {A} key k tbl.

Definition set_postal (old excluded : PostalRow.t) : PostalRow.t :=
  PostalRow.mk (PostalRow.postal_code old)
    (PostalRow.census_subdivision_name excluded)
    (PostalRow.common_name excluded)
    (PostalRow.census_division_name excluded)
    (PostalRow.ei_economic_region_name excluded)
    (PostalRow.ei_economic_region_url excluded)
    (PostalRow.date_retrieved excluded).

Definition set_region (old excluded : RegionRow.t) : RegionRow.t :=
  RegionRow.mk (RegionRow.economic_region_name old)
    (RegionRow.province excluded)
    (RegionRow.economic_region_code excluded)
    (RegionRow.unemployment_rate excluded)
    (RegionRow.insured_hours_required excluded)
    (RegionRow.min_weeks_payable excluded)
    (RegionRow.max_weeks_payable excluded)
    (RegionRow.best_weeks_required excluded)
    (RegionRow.date_retrieved excluded).

(** ** Walking the paths of the handler *)

Ltac unfold_handler :=
  unfold scrape, scrape_request, scrape_callback, scrape_miss, scrape_cached,
    scrape_fetch, scrape_ok,
    getEconomicRegionData, refreshEconomicRegion, scrapeEconomicRegion,
    client_query_postal_param, client_query_postal_null,
    client_query_postal, client_query_region, client_query, axios_get,
    date_now, res_json, settle, emit, bind, ret, throw, try_catch, idle.

(** The term on which the evaluation of [t] waits: the innermost scrutinee
    along the head of [t]. *)
Ltac stuck_head t :=
  lazymatch t with
  | match ?x with _ => _ end => stuck_head x
  | (match ?x with _ => _ end) _ => stuck_head x
  | snd ?x => stuck_head x
  | negb ?x => stuck_head x
  | _ => t
  end.

(** One branching point of the handler: a verdict of the store, an answer of
    the remote site, the first row of a result, a freshness test.  What the
    context already says about it is used; otherwise both ways are taken. *)
Ltac decide_branch h :=
  match goal with
  | H : h = _ |- _ => rewrite H
  | H : forall row, db_rejects ?w (UpsertPostal row) = _ |- _ =>
      lazymatch h with db_rejects w (UpsertPostal ?r) => rewrite (H r) end
  | H : forall row, db_rejects ?w (UpsertRegion row) = _ |- _ =>
      lazymatch h with db_rejects w (UpsertRegion ?r) => rewrite (H r) end
  | H : forall q, db_rejects ?w q = _ |- _ =>
      lazymatch h with db_rejects w ?q => rewrite (H q) end
  | _ => destruct h eqn:?
  end.

Ltac branch :=
  lazymatch goal with
  | |- _ = ?T -> _ =>
      lazymatch T with
      | match _ with _ => _ end => idtac
      | (match _ with _ => _ end) _ => idtac
      | snd _ => idtac
      end;
      let h := stuck_head T in decide_branch h; cbn
  end.

(** Name the final state of the request in the goal and split the goal along
    the paths that lead to it, outermost branching point first. *)
Ltac paths :=
  match goal with
  | |- context [scrape ?w ?pc ?p ?r] =>
      let st := fresh "st" in
      let E := fresh "E" in
      remember (scrape w pc p r) as st eqn:E; revert E;
      unfold_handler; cbn; repeat branch; intros ->; cbn
  end.

(** The same for any run [t] of a part of the handler. *)
Ltac paths_of t :=
  let st := fresh "st" in
  let E := fresh "E" in
  remember t as st eqn:E; revert E;
  unfold_handler; cbn; repeat branch; intros ->; cbn.

(** Decide membership of an event in an explicit log. *)
Ltac in_log H :=
  cbn in H;
  repeat (destruct H as [H | H];
          [ try discriminate H; try (injection H as <-; reflexivity);
            try (injection H as <- <-; reflexivity) | ]);
  try contradiction.

(** * Properties *)

(** ** Strings *)

Lemma replace_space_none (s : string) :
  has_space s = false -> replace_space s = s.
Proof.
  induction s as [| c s IH]; cbn; [reflexivity|].
  destruct (Ascii.eqb c " "); cbn; [discriminate|].
  intros H. now rewrite IH.
Qed.

Lemma replace_space_first (a b : string) :
  has_space a = false -> replace_space (a ++ String " " b) = a ++ b.
Proof.
  induction a as [| c a IH]; cbn; [reflexivity|].
  destruct (Ascii.eqb c " "); cbn; [discriminate|].
  intros H. now rewrite IH.
Qed.

#[local] Arguments String.append : simpl never.
#[local] Arguments select_postal : simpl never.
#[local] Arguments select_region : simpl never.
#[local] Arguments extract_region : simpl never.

(** ** The freshness test *)

(** C5.  For every retrieval timestamp [T] and every reading [now] of the
    clock, [isDataStale] answers true exactly when [now - T] is strictly more
    than thirty days; the threshold is the one named constant; 29 days 23 h
    59 min 59 s old is fresh, exactly 30 days old is fresh, 30 days and one
    second old is stale. *)
Theorem isDataStale_iff_older_than_30_days (now T : Z) :
  (isDataStale now T = true <-> now - T > ms_of 30 0 0 0)
  /\ THIRTY_DAYS_IN_MS = ms_of 30 0 0 0
  /\ isDataStale now (now - ms_of 29 23 59 59) = false
  /\ isDataStale now (now - ms_of 30 0 0 0) = false
  /\ isDataStale now (now - ms_of 30 0 0 1) = true.
Proof.
  assert (Hc : THIRTY_DAYS_IN_MS = ms_of 30 0 0 0) by reflexivity.
  unfold isDataStale. rewrite Hc.
  repeat split.
  - intros H. apply Z.gtb_lt in H. lia.
  - intros H. apply Z.gtb_lt. lia.
  - replace (now - (now - ms_of 29 23 59 59)) with (ms_of 29 23 59 59) by lia.
    reflexivity.
  - replace (now - (now - ms_of 30 0 0 0)) with (ms_of 30 0 0 0) by lia.
    reflexivity.
  - replace (now - (now - ms_of 30 0 0 1)) with (ms_of 30 0 0 1) by lia.
    reflexivity.
Qed.

Lemma isDataStale_iff_older_than_30_days_witness :
  ms_of 31 0 0 0 - 0 > ms_of 30 0 0 0 /\ isDataStale (ms_of 31 0 0 0) 0 = true.
Proof.
  destruct (isDataStale_iff_older_than_30_days (ms_of 31 0 0 0) 0)
    as ([_ H] & _).
  assert (Hgt : ms_of 31 0 0 0 - 0 > ms_of 30 0 0 0) by (vm_compute; reflexivity).
  split; [exact Hgt | exact (H Hgt)].
Defined.

(** ** The region extraction *)

Lemma region_row_step_overwrites (cells0 cells : Row) :
  region_row_step (region_fields cells0) cells = region_fields cells.
Proof. reflexivity. Qed.

Lemma last_cons_any {A : Type} (l : list A) (x d : A) :
  last (x :: l) d = last l x.
Proof.
  revert x d. induction l as [| y l IH]; intros x d.
  - reflexivity.
  - change (last (x :: y :: l) d) with (last (y :: l) d).
    rewrite IH. symmetry. apply IH.
Qed.

Lemma fold_region_rows (rows : list Row) (cells0 : Row) :
  fold_left region_row_step rows (region_fields cells0)
  = region_fields (last rows cells0).
Proof.
  revert cells0. induction rows as [| r rows IH]; intros cells0.
  - reflexivity.
  - cbn [fold_left]. rewrite region_row_step_overwrites, IH.
    now rewrite last_cons_any.
Qed.

Lemma extract_region_nonempty (page : Page) (r : Row) (rows : list Row) :
  select_rows "regions" page = r :: rows ->
  extract_region page = region_fields (last (r :: rows) []).
Proof.
  intros H. unfold extract_region. rewrite H. cbn [fold_left].
  change (region_row_step [] r) with (region_fields r).
  rewrite fold_region_rows. now rewrite last_cons_any.
Qed.

(** C7.  When the fetched region page has at least one row in its table,
    the walk over all rows in order leaves in the working object the eight
    fields of the last row, and that object is what [scrapeEconomicRegion]
    returns. *)
Theorem scrapeEconomicRegion_last_row_wins
  (w : World) (relativeURL : jsval) (page : Page) (st : State) :
  http_get w (BASE_URL ++ template relativeURL) = Some page ->
  select_rows "regions" page <> [] ->
  let cells := last (select_rows "regions" page) [] in
  extract_region page = fold_left region_row_step (select_rows "regions" page) []
  /\ fst (scrapeEconomicRegion w relativeURL st) = Return
       [ ("Province", Str (trim (cell_text_at cells 0)));
         ("EconomicRegionCode", Str (trim (cell_text_at cells 1)));
         ("EconomicRegionName", Str (trim (cell_text_at cells 2)));
         ("UnemploymentRate", Str (trim (cell_text_at cells 3)));
         ("InsuredHoursRequired", Str (trim (cell_text_at cells 4)));
         ("MinWeeksPayable", Str (trim (cell_text_at cells 5)));
         ("MaxWeeksPayable", Str (trim (cell_text_at cells 6)));
         ("BestWeeksRequired", Str (trim (cell_text_at cells 7))) ].
Proof.
  intros Hget Hrows cells. split; [reflexivity|].
  unfold scrapeEconomicRegion, axios_get, bind, emit, ret. cbn.
  rewrite Hget. cbn.
  destruct (select_rows "regions" page) as [| r rows] eqn:E; [congruence|].
  rewrite (extract_region_nonempty page r rows E). reflexivity.
Qed.

Lemma scrapeEconomicRegion_last_row_wins_witness :
  fst (scrapeEconomicRegion ottawa_world (Str "region/35.aspx") (idle [] []))
  = Return
      [ ("Province", Str "ON"); ("EconomicRegionCode", Str "3520");
        ("EconomicRegionName", Str "Ottawa"); ("UnemploymentRate", Str "5.6");
        ("InsuredHoursRequired", Str "420"); ("MinWeeksPayable", Str "14");
        ("MaxWeeksPayable", Str "45"); ("BestWeeksRequired", Str "14-22") ].
Proof.
  apply (scrapeEconomicRegion_last_row_wins ottawa_world (Str "region/35.aspx")
           ottawa_region_page (idle [] [])).
  - reflexivity.
  - discriminate.
Defined.

(** ** The postal key and the fetch locator *)

(** C3, as the code has it.  The store key of the read and of the upsert is
    the postal code exactly as it came in; the locator of the postal page
    embeds the postal code with its first space removed, other white space
    kept. *)
Theorem scrape_key_is_raw_and_locator_drops_first_space
  (w : World) (postalCode : string)
  (postal : list PostalRow.t) (region : list RegionRow.t) :
  let st := scrape w postalCode postal region in
  hd_error (trace st) = Some (QueryIssued (SelectPostal postalCode))
  /\ (forall key, In (QueryIssued (SelectPostal key)) (trace st) ->
                  key = postalCode)
  /\ (forall row, In (QueryIssued (UpsertPostal row)) (trace st) ->
                  PostalRow.postal_code row = postalCode)
  /\ (forall url, In (HttpGet PostalPage url) (trace st) ->
                  url = BASE_URL ++ POSTAL_CODE_ENDPOINT ++ replace_space postalCode)
  /\ (has_space postalCode = false -> replace_space postalCode = postalCode)
  /\ (forall a b, has_space a = false -> postalCode = a ++ String " " b ->
                  replace_space postalCode = a ++ b).
Proof.
  cbv zeta.
  assert (Hlog :
    let st := scrape w postalCode postal region in
    hd_error (trace st) = Some (QueryIssued (SelectPostal postalCode))
    /\ (forall key, In (QueryIssued (SelectPostal key)) (trace st) ->
                    key = postalCode)
    /\ (forall row, In (QueryIssued (UpsertPostal row)) (trace st) ->
                    PostalRow.postal_code row = postalCode)
    /\ (forall url, In (HttpGet PostalPage url) (trace st) ->
                    url = BASE_URL ++ POSTAL_CODE_ENDPOINT ++ replace_space postalCode)).
  { cbv zeta. paths.
    all: split; [reflexivity|]; repeat split; intros x H; in_log H. }
  cbv zeta in Hlog. destruct Hlog as (H1 & H2 & H3 & H4).
  repeat split; auto.
  - apply replace_space_none.
  - intros a b Ha ->. now apply replace_space_first.
Qed.

Lemma scrape_key_is_raw_and_locator_drops_first_space_witness :
  let st := scrape ottawa_world "K1A 0A1" [] [] in
  hd_error (trace st) = Some (QueryIssued (SelectPostal "K1A 0A1"))
  /\ replace_space "K1A 0A1" = "K1A" ++ "0A1".
Proof.
  pose proof (scrape_key_is_raw_and_locator_drops_first_space
                ottawa_world "K1A 0A1" [] []) as H.
  cbv zeta in H. destruct H as (H1 & _ & _ & _ & _ & H6).
  split; [exact H1|].
  apply (H6 "K1A" "0A1"); reflexivity.
Defined.

(** C3, as the claim has it, fails: a postal code with a space is read and
    written under the key with its space, a second request without the
    space does not find that row and adds its own, and of two spaces one
    stays in the locator. *)
Lemma scrape_key_keeps_whitespace :
  let st1 := scrape ottawa_world "K1A 0A1" [] [] in
  let st2 := scrape ottawa_world "K1A0A1"
               (postal_code_data st1) (economic_region_data st1) in
  In (QueryIssued (SelectPostal "K1A 0A1")) (trace st1)
  /\ postal_keys (postal_code_data st1) = ["K1A 0A1"]
  /\ postal_keys (postal_code_data st2) = ["K1A 0A1"; "K1A0A1"]
  /\ In (HttpGet PostalPage (BASE_URL ++ POSTAL_CODE_ENDPOINT ++ "K1A 0A1"))
        (trace (scrape ottawa_world "K1A  0A1" [] [])).
Proof.
  vm_compute. repeat split; auto 10.
Qed.

(** ** Upserts *)

Section Keyed.

Variable A : Type.
Variable key : A -> string.
Variable merge : A -> A -> A.
Hypothesis merge_all : forall old excluded,
  key old = key excluded -> merge old excluded = excluded.

Lemma select_by_absent (k : string) (tbl : list A) :
  ~ In k (map key tbl) -> select_by key k tbl = [].
Proof.
  induction tbl as [| r tbl IH]; cbn; [reflexivity|].
  intros H. destruct (String.eqb_spec (key r) k) as [E | E].
  - exfalso. apply H. now left.
  - apply IH. intros Hin. apply H. now right.
Qed.

Lemma upsert_by_keys (excluded : A) (tbl : list A) :
  map key (upsert_by key merge excluded tbl) = map key tbl
  \/ (~ In (key excluded) (map key tbl)
      /\ map key (upsert_by key merge excluded tbl) = (map key tbl ++ [key excluded])%list).
Proof.
  induction tbl as [| old tbl IH]; cbn.
  - right. split; [intros []| reflexivity].
  - destruct (String.eqb_spec (key old) (key excluded)) as [E | E]; cbn.
    + left. now rewrite (merge_all old excluded E), E.
    + destruct IH as [IH | [Hn IH]].
      * left. now rewrite IH.
      * right. split; [| now rewrite IH].
        intros [H | H]; [now apply E | now apply Hn].
Qed.

Lemma upsert_by_NoDup (excluded : A) (tbl : list A) :
  NoDup (map key tbl) -> NoDup (map key (upsert_by key merge excluded tbl)).
Proof.
  intros H. destruct (upsert_by_keys excluded tbl) as [E | [Hn E]]; rewrite E.
  - exact H.
  - apply NoDup_app; [exact H | repeat constructor; intros [] |].
    intros k Hk [<- | []]. now apply Hn.
Qed.

Lemma upsert_by_In (excluded r : A) (tbl : list A) :
  In r (upsert_by key merge excluded tbl) -> In r tbl \/ r = excluded.
Proof.
  induction tbl as [| old tbl IH]; cbn.
  - intros [<- | []]. now right.
  - destruct (String.eqb_spec (key old) (key excluded)) as [E | E]; cbn.
    + rewrite (merge_all old excluded E). intros [<- | H]; auto.
    + intros [<- | H]; auto. destruct (IH H); auto.
Qed.

Lemma select_by_upsert_first (excluded : A) (tbl : list A) :
  hd_error (select_by key (key excluded) (upsert_by key merge excluded tbl)) = Some excluded.
Proof.
  induction tbl as [| old tbl IH]; cbn.
  - now rewrite String.eqb_refl.
  - destruct (String.eqb_spec (key old) (key excluded)) as [E | E]; cbn.
    + rewrite (merge_all old excluded E), String.eqb_refl. reflexivity.
    + destruct (String.eqb_spec (key old) (key excluded)); [contradiction|].
      exact IH.
Qed.

Lemma select_by_upsert_same (excluded : A) (tbl : list A) :
  NoDup (map key tbl) ->
  select_by key (key excluded) (upsert_by key merge excluded tbl) = [excluded].
Proof.
  induction tbl as [| old tbl IH]; cbn; intros H.
  - now rewrite String.eqb_refl.
  - inversion H as [| k ks Hk Hnd]; subst.
    destruct (String.eqb_spec (key old) (key excluded)) as [E | E]; cbn.
    + rewrite (merge_all old excluded E), String.eqb_refl.
      f_equal. apply select_by_absent. now rewrite <- E.
    + destruct (String.eqb_spec (key old) (key excluded)); [contradiction|].
      now apply IH.
Qed.

Lemma select_by_upsert_other (excluded : A) (k : string) (tbl : list A) :
  k <> key excluded ->
  select_by key k (upsert_by key merge excluded tbl) = select_by key k tbl.
Proof.
  intros Hk. induction tbl as [| old tbl IH]; cbn.
  - destruct (String.eqb_spec (key excluded) k); [congruence | reflexivity].
  - destruct (String.eqb_spec (key old) (key excluded)) as [E | E]; cbn.
    + rewrite (merge_all old excluded E).
      destruct (String.eqb_spec (key excluded) k); [congruence|].
      destruct (String.eqb_spec (key old) k); [congruence | reflexivity].
    + fold (select_by key k (upsert_by key merge excluded tbl)).
      fold (select_by key k tbl). now rewrite IH.
Qed.

End Keyed.

Lemma set_postal_all (old excluded : PostalRow.t) :
  PostalRow.postal_code old = PostalRow.postal_code excluded ->
  set_postal old excluded = excluded.
Proof. destruct old, excluded; cbn. now intros ->. Qed.

Lemma set_region_all (old excluded : RegionRow.t) :
  RegionRow.economic_region_name old = RegionRow.economic_region_name excluded ->
  set_region old excluded = excluded.
Proof. destruct old, excluded; cbn. now intros ->. Qed.

Lemma upsert_postal_keyed (excluded : PostalRow.t) (tbl : list PostalRow.t) :
  upsert_postal excluded tbl
  = upsert_by PostalRow.postal_code set_postal excluded tbl.
Proof. induction tbl as [| old tbl IH]; cbn; [| rewrite IH]; reflexivity. Qed.

Lemma upsert_region_keyed (excluded : RegionRow.t) (tbl : list RegionRow.t) :
  upsert_region excluded tbl
  = upsert_by RegionRow.economic_region_name set_region excluded tbl.
Proof. induction tbl as [| old tbl IH]; cbn; [| rewrite IH]; reflexivity. Qed.

(** ** The request that finds a fresh postal row *)

Lemma isDataStale_within (now T : Z) :
  now - T <= THIRTY_DAYS_IN_MS -> isDataStale now T = false.
Proof. intros H. unfold isDataStale. rewrite Z.gtb_ltb. apply Z.ltb_ge. lia. Qed.

Lemma isDataStale_beyond (now T : Z) :
  now - T > THIRTY_DAYS_IN_MS -> isDataStale now T = true.
Proof. intros H. unfold isDataStale. apply Z.gtb_lt. lia. Qed.

(** C2.  When the store holds a postal row for the key whose retrieval
    timestamp is within thirty days of the clock, the request does not fetch
    the postal page and does not write the postal table; a response, when
    there is one, is the stored row under its column names with the region
    detail added.  With a fresh region row too nothing is fetched at all and
    the response is made of the two stored rows; with the region row stale or
    missing the region page is fetched. *)
Theorem scrape_fresh_postal_row_skips_postal_fetch
  (w : World) (postalCode : string)
  (postal : list PostalRow.t) (region : list RegionRow.t)
  (postalRow : PostalRow.t) :
  db_rejects w (SelectPostal postalCode) = false ->
  hd_error (select_postal postalCode postal) = Some postalRow ->
  clock w 0 - PostalRow.date_retrieved postalRow <= THIRTY_DAYS_IN_MS ->
  let st := scrape w postalCode postal region in
  let regionName := PostalRow.ei_economic_region_name postalRow in
  let regionURL := of_sql_text (PostalRow.ei_economic_region_url postalRow) in
  (forall url, ~ In (HttpGet PostalPage url) (trace st))
  /\ postal_code_data st = postal
  /\ (forall r, response st = Some r ->
        exists details,
          r = {| status := 200;
                 body := Obj [("data", Arr [Obj (postal_row_obj postalRow
                          ++ [("EconomicRegionDetails", Obj details)])])] |})
  /\ (forall econRow,
        db_rejects w (SelectRegion regionName) = false ->
        hd_error (select_region regionName region) = Some econRow ->
        clock w 1 - RegionRow.date_retrieved econRow <= THIRTY_DAYS_IN_MS ->
        (forall site url, ~ In (HttpGet site url) (trace st))
        /\ response st = Some
             {| status := 200;
                body := Obj [("data", Arr [Obj (postal_row_obj postalRow
                         ++ [("EconomicRegionDetails",
                              Obj (region_row_obj econRow))])])] |})
  /\ (db_rejects w (SelectRegion regionName) = false ->
      match hd_error (select_region regionName region) with
      | Some econRow =>
          clock w 1 - RegionRow.date_retrieved econRow > THIRTY_DAYS_IN_MS
      | None => True
      end ->
      In (HttpGet RegionPage (BASE_URL ++ template regionURL)) (trace st)).
Proof.
  intros Hdb Hrow Hfresh. apply isDataStale_within in Hfresh.
  cbv zeta. split; [| split; [| split; [| split]]].
  - intros url. paths; intros H; in_log H.
  - paths; reflexivity.
  - intros r. paths; intros H; try discriminate H;
      injection H as <-; eexists; reflexivity.
  - intros econRow Hdbr Hreg Hrfresh. apply isDataStale_within in Hrfresh.
    paths. split; [| reflexivity].
    intros site url H; in_log H.
  - intros Hdbr Hreg.
    destruct (hd_error (select_region (PostalRow.ei_economic_region_name postalRow)
                region)) as [econRow |] eqn:Hsel.
    + apply isDataStale_beyond in Hreg. paths; auto 20.
    + paths; auto 20.
Qed.


Lemma scrape_fresh_postal_row_skips_postal_fetch_witness :
  let st := scrape ottawa_world "K1A0A1" [ottawa_postal_row] [] in
  (forall url, ~ In (HttpGet PostalPage url) (trace st))
  /\ In (HttpGet RegionPage ottawa_region_url) (trace st).
Proof.
  cbv zeta.
  destruct (scrape_fresh_postal_row_skips_postal_fetch
              ottawa_world "K1A0A1" [ottawa_postal_row] [] ottawa_postal_row)
    as (H1 & _ & _ & _ & H5).
  - reflexivity.
  - reflexivity.
  - vm_compute. discriminate.
  - split; [exact H1|]. apply H5; [reflexivity | exact I].
Defined.

(** ** Failures *)

(** A missing or stale row sends the handler down the same way. *)
Ltac miss_cases Hmiss :=
  match type of Hmiss with
  | postal_miss _ ?rows =>
      unfold postal_miss in Hmiss;
      destruct (hd_error rows) eqn:?;
      [apply isDataStale_beyond in Hmiss |]
  | region_miss _ ?rows =>
      unfold region_miss in Hmiss;
      destruct (hd_error rows) eqn:?;
      [apply isDataStale_beyond in Hmiss |]
  end.

(** C4, as the code has it.  When the postal row is missing or stale and the
    fetch of the postal page fails, the request is answered with status 500
    and the scrape-error body, no upsert is issued and both tables are left
    as they were. *)
Theorem scrape_postal_fetch_failure_writes_nothing
  (w : World) (postalCode : string)
  (postal : list PostalRow.t) (region : list RegionRow.t) :
  db_rejects w (SelectPostal postalCode) = false ->
  postal_miss (clock w 0) (select_postal postalCode postal) ->
  http_get w (BASE_URL ++ POSTAL_CODE_ENDPOINT ++ replace_space postalCode) = None ->
  let st := scrape w postalCode postal region in
  response st = Some scrape_error
  /\ postal_code_data st = postal
  /\ economic_region_data st = region
  /\ (forall row, ~ In (QueryIssued (UpsertPostal row)) (trace st))
  /\ (forall row, ~ In (QueryIssued (UpsertRegion row)) (trace st)).
Proof.
  intros Hdb Hmiss Hget. cbv zeta.
  miss_cases Hmiss; paths; repeat split; intros row H; in_log H.
Qed.

Lemma scrape_postal_fetch_failure_writes_nothing_witness :
  let st := scrape remote_down_world "K1A0A1" [] [] in
  response st = Some scrape_error /\ postal_code_data st = [].
Proof.
  cbv zeta.
  destruct (scrape_postal_fetch_failure_writes_nothing
              remote_down_world "K1A0A1" [] [])
    as (H1 & H2 & _).
  - reflexivity.
  - exact I.
  - reflexivity.
  - split; assumption.
Defined.

(** C4, as the claim has it, fails where the page arrives without a data
    row: the fields are read as empty strings, the row is upserted all the
    same, and the request ends in the scrape error only because the locator
    "undefined" is not served; where it is served, the request succeeds. *)
Lemma scrape_blank_postal_page_is_written :
  let st := scrape blank_postal_world "K1A0A1" [] [] in
  response st = Some scrape_error
  /\ postal_code_data st = [ PostalRow.mk "K1A0A1" "" "" "" "" None 1000 ]
  /\ exists r,
       response (scrape blank_postal_lenient_world "K1A0A1" [] []) = Some r
       /\ status r = 200.
Proof.
  vm_compute. split; [reflexivity | split; [reflexivity |]].
  eexists. split; reflexivity.
Qed.

(** The two error bodies.  The body "Database error" answers exactly the
    requests whose read of the postal table the store refused.  The body
    "Error scraping postal code data" answers failures of either kind met
    after that read: a page that could not be fetched, or a read of the
    region table the store refused.  No other body goes out with status
    500. *)
Lemma scrape_error_bodies
  (w : World) (postalCode : string)
  (postal : list PostalRow.t) (region : list RegionRow.t) :
  let st := scrape w postalCode postal region in
  (db_rejects w (SelectPostal postalCode) = true ->
   response st = Some database_error)
  /\ (response st = Some database_error ->
      db_rejects w (SelectPostal postalCode) = true)
  /\ (response st = Some scrape_error ->
      db_rejects w (SelectPostal postalCode) = false
      /\ ((exists site url,
             In (HttpGet site url) (trace st) /\ http_get w url = None)
          \/ (exists regionName,
                In (QueryFailed (SelectRegion regionName)) (trace st)
                /\ db_rejects w (SelectRegion regionName) = true)))
  /\ (forall r, response st = Some r -> status r = 500 ->
        r = database_error \/ r = scrape_error)
  /\ (forall page,
        db_rejects w (SelectPostal postalCode) = false ->
        postal_miss (clock w 0) (select_postal postalCode postal) ->
        http_get w (BASE_URL ++ POSTAL_CODE_ENDPOINT ++ replace_space postalCode)
          = Some page ->
        (forall row, db_rejects w (UpsertPostal row) = false) ->
        db_rejects w (SelectRegion
          (trim (anchor_text_at (hd [] (select_rows "table" page)) 4))) = true ->
        response st = Some scrape_error).
Proof.
  cbv zeta. split; [| split; [| split; [| split]]].
  - intros Hdb. paths. reflexivity.
  - paths; intros H; first [reflexivity | discriminate H].
  - paths; intros H; try discriminate H; (split; [reflexivity |]).
    all: first
      [ left; do 2 eexists; split; [cbn; auto 20 | eassumption]
      | right; eexists; split; [cbn; auto 20 | eassumption] ].
  - intros r. paths; intros H Hs; try discriminate H;
      injection H as <-; first [discriminate Hs | auto].
  - intros page Hdb Hmiss Hget Hup Hreg.
    miss_cases Hmiss; paths; reflexivity.
Qed.

Lemma scrape_error_bodies_witness :
  response (scrape postal_store_down_world "K1A0A1" [] []) = Some database_error
  /\ response (scrape region_store_down_world "K1A0A1" [] []) = Some scrape_error.
Proof.
  split.
  - apply (scrape_error_bodies postal_store_down_world "K1A0A1" [] []).
    reflexivity.
  - destruct (scrape_error_bodies region_store_down_world "K1A0A1" [] [])
      as (_ & _ & _ & _ & H).
    apply (H ottawa_postal_page).
    + reflexivity.
    + exact I.
    + reflexivity.
    + reflexivity.
    + reflexivity.
Defined.

(** C6, at the failing input.  The store refuses the read of the region
    table; the remote site has served the postal page and is asked for
    nothing else.  The handler logs the refusal and answers with the scrape
    error, where the refused read of the postal table is answered with the
    database error. *)
Lemma scrape_region_store_error_reported_as_scrape_error :
  let st := scrape region_store_down_world "K1A0A1" [] [] in
  let row := PostalRow.mk "K1A0A1" "Ottawa" "Ottawa" "Ottawa" "Ottawa"
               (Some "region/35.aspx") 1000 in
  response st = Some scrape_error
  /\ trace st
     = [ QueryIssued (SelectPostal "K1A0A1");
         QueryDone (SelectPostal "K1A0A1");
         HttpGet PostalPage ottawa_postal_url;
         ClockRead 1000;
         QueryIssued (UpsertPostal row);
         RegionLookup "Ottawa" (Str "region/35.aspx");
         QueryIssued (SelectRegion "Ottawa");
         QueryDone (UpsertPostal row);
         QueryFailed (SelectRegion "Ottawa");
         Responded scrape_error ]
  /\ http_get region_store_down_world ottawa_postal_url = Some ottawa_postal_page
  /\ response (scrape postal_store_down_world "K1A0A1" [] [])
     = Some database_error.
Proof. vm_compute. repeat split. Qed.

(** C1, as the code has it.  A request that went through the postal fetch
    and then finds the region table unreadable, or the region row missing or
    stale and the region page not to be fetched, is answered with an error,
    status 500.  A request served from a fresh postal row whose region step
    fails in one of these two ways is never answered with a result.  A
    region page that arrives without a row is no failure on either way: the
    request is answered with a result whose region detail has a retrieval
    date and nothing else. *)
Theorem scrape_region_failure_gives_no_result
  (w : World) (postalCode : string)
  (postal : list PostalRow.t) (region : list RegionRow.t) :
  let st := scrape w postalCode postal region in
  (forall page,
     db_rejects w (SelectPostal postalCode) = false ->
     postal_miss (clock w 0) (select_postal postalCode postal) ->
     http_get w (BASE_URL ++ POSTAL_CODE_ENDPOINT ++ replace_space postalCode)
       = Some page ->
     (forall row, db_rejects w (UpsertPostal row) = false) ->
     let cells := hd [] (select_rows "table" page) in
     let regionName := trim (anchor_text_at cells 4) in
     let regionURL := anchor_href_at cells 4 in
     let k := match hd_error (select_postal postalCode postal) with
              | Some _ => 2%nat
              | None => 1%nat
              end in
     (db_rejects w (SelectRegion regionName) = true
      \/ (db_rejects w (SelectRegion regionName) = false
          /\ region_miss (clock w k) (select_region regionName region)
          /\ http_get w (BASE_URL ++ template regionURL) = None) ->
      exists r, response st = Some r /\ status r = 500)
     /\ (forall rpage,
           db_rejects w (SelectRegion regionName) = false ->
           region_miss (clock w k) (select_region regionName region) ->
           http_get w (BASE_URL ++ template regionURL) = Some rpage ->
           select_rows "regions" rpage = [] ->
           exists record t,
             response st
             = Some {| status := 200;
                       body := Obj [("data", Arr [Obj record])] |}
             /\ get_prop record "EconomicRegionDetails"
                = Obj [("date_retrieved", Date t)]))
  /\ (forall postalRow,
        db_rejects w (SelectPostal postalCode) = false ->
        hd_error (select_postal postalCode postal) = Some postalRow ->
        clock w 0 - PostalRow.date_retrieved postalRow <= THIRTY_DAYS_IN_MS ->
        let regionName := PostalRow.ei_economic_region_name postalRow in
        let regionURL := of_sql_text (PostalRow.ei_economic_region_url postalRow) in
        (db_rejects w (SelectRegion regionName) = true
         \/ (db_rejects w (SelectRegion regionName) = false
             /\ region_miss (clock w 1) (select_region regionName region)
             /\ http_get w (BASE_URL ++ template regionURL) = None) ->
         forall r, response st = Some r -> status r <> 200)
        /\ (forall rpage,
              db_rejects w (SelectRegion regionName) = false ->
              region_miss (clock w 1) (select_region regionName region) ->
              http_get w (BASE_URL ++ template regionURL) = Some rpage ->
              select_rows "regions" rpage = [] ->
              exists t,
                response st
                = Some {| status := 200;
                          body := Obj [("data", Arr [Obj
                            (postal_row_obj postalRow
                             ++ [("EconomicRegionDetails",
                                  Obj [("date_retrieved", Date t)])])])] |})).
Proof.
  cbv zeta. split.
  - intros page Hdb Hmiss Hget Hup. split.
    + miss_cases Hmiss; intros [Hrej | (Hsel & Hrmiss & Hrget)];
        try miss_cases Hrmiss; paths; eexists; split; reflexivity.
    + intros rpage.
      miss_cases Hmiss; intros Hsel Hrmiss Hrget Hrows;
        (assert (Hex : extract_region rpage = [])
           by (unfold extract_region; now rewrite Hrows));
        miss_cases Hrmiss; paths; rewrite Hex; cbn;
        do 2 eexists; split; reflexivity.
  - intros postalRow Hdb Hrow Hfresh. apply isDataStale_within in Hfresh. split.
    + intros [Hrej | (Hsel & Hrmiss & Hrget)] r;
        try miss_cases Hrmiss; paths; discriminate.
    + intros rpage Hsel Hrmiss Hrget Hrows.
      assert (Hex : extract_region rpage = [])
        by (unfold extract_region; now rewrite Hrows).
      miss_cases Hrmiss; paths; rewrite Hex; cbn; eexists; reflexivity.
Qed.

Lemma scrape_region_failure_gives_no_result_witness :
  (exists r, response (scrape region_store_down_world "K1A0A1" [] []) = Some r
             /\ status r = 500)
  /\ (forall r,
       response (scrape region_store_down_world "K1A0A1" [ottawa_postal_row] [])
         = Some r -> status r <> 200)
  /\ exists record t,
       response (scrape blank_region_world "K1A0A1" [] [])
       = Some {| status := 200; body := Obj [("data", Arr [Obj record])] |}
       /\ get_prop record "EconomicRegionDetails"
          = Obj [("date_retrieved", Date t)].
Proof.
  destruct (scrape_region_failure_gives_no_result
              region_store_down_world "K1A0A1" [] []) as [HA _].
  destruct (scrape_region_failure_gives_no_result
              region_store_down_world "K1A0A1" [ottawa_postal_row] [])
    as [_ HB].
  destruct (scrape_region_failure_gives_no_result
              blank_region_world "K1A0A1" [] []) as [HC _].
  split; [| split].
  - destruct (HA ottawa_postal_page) as [H _].
    + reflexivity.
    + exact I.
    + reflexivity.
    + reflexivity.
    + apply H. left. reflexivity.
  - destruct (HB ottawa_postal_row) as [H _].
    + reflexivity.
    + reflexivity.
    + vm_compute. discriminate.
    + apply H. left. reflexivity.
  - destruct (HC ottawa_postal_page) as [_ H].
    + reflexivity.
    + exact I.
    + reflexivity.
    + reflexivity.
    + apply (H []).
      * reflexivity.
      * exact I.
      * reflexivity.
      * reflexivity.
Defined.

(** C1, as the claim has it, fails twice.  Served from a fresh postal row,
    a request whose read of the region table is refused gets no response at
    all: the rejection leaves the callback and nobody handles it.  And a
    region page without rows is no failure: the request succeeds, with a
    region detail that has a retrieval date and nothing else. *)
Lemma scrape_region_failure_unanswered_or_empty_detail :
  (let st := scrape region_store_down_world "K1A0A1" [ottawa_postal_row] [] in
   response st = None
   /\ In (UnhandledRejection (DbError (SelectRegion "Ottawa"))) (trace st))
  /\ exists record,
       response (scrape blank_region_world "K1A0A1" [] [])
         = Some {| status := 200; body := Obj [("data", Arr [Obj record])] |}
       /\ get_prop record "EconomicRegionDetails"
          = Obj [("date_retrieved", Date 1001)].
Proof.
  split.
  - vm_compute. split; [reflexivity | auto 20].
  - eexists. split; vm_compute; reflexivity.
Qed.

(** ** What a request writes *)

(** Whatever path a request takes, each table is left as it was found or
    with one upsert applied, and that upsert was issued right after the
    reading of the clock that stamps its row. *)
Lemma scrape_writes (w : World) (postalCode : string)
  (postal : list PostalRow.t) (region : list RegionRow.t) :
  let st := scrape w postalCode postal region in
  (postal_code_data st = postal
   \/ exists row,
        postal_code_data st = upsert_postal row postal
        /\ followed_by (ClockRead (PostalRow.date_retrieved row))
                       (QueryIssued (UpsertPostal row)) (trace st))
  /\ (economic_region_data st = region
      \/ exists row,
           economic_region_data st = upsert_region row region
           /\ followed_by (ClockRead (RegionRow.date_retrieved row))
                          (QueryIssued (UpsertRegion row)) (trace st)).
Proof.
  cbv zeta. paths.
  all: split;
    first [ left; reflexivity
          | right; eexists; split; [reflexivity | cbn; auto 20] ].
Qed.

(** The upserts the store has run for a request are what changed its
    tables: a table is left as the upsert of the row applied to the table
    the request found, or, where no upsert was run, as it was found. *)
Lemma scrape_applies_upserts (w : World) (postalCode : string)
  (postal : list PostalRow.t) (region : list RegionRow.t) :
  let st := scrape w postalCode postal region in
  (forall row, In (QueryDone (UpsertPostal row)) (trace st) ->
     postal_code_data st = upsert_postal row postal
     /\ PostalRow.postal_code row = postalCode)
  /\ ((forall row, ~ In (QueryDone (UpsertPostal row)) (trace st)) ->
      postal_code_data st = postal)
  /\ (forall row, In (QueryDone (UpsertRegion row)) (trace st) ->
        economic_region_data st = upsert_region row region)
  /\ ((forall row, ~ In (QueryDone (UpsertRegion row)) (trace st)) ->
      economic_region_data st = region).
Proof.
  cbv zeta. paths.
  all: split; [| split; [| split]].
  all: try (intros row H;
            repeat (destruct H as [H | H]; [try discriminate H |]);
            try contradiction;
            injection H as <-; repeat split).
  all: intros Hno; first [ reflexivity | exfalso; eapply Hno; cbn; auto 20 ].
Qed.

(** C8.  Both writes are upserts: after one, the key selects exactly the
    proposed row, every column of it, the retrieval timestamp included, and
    nothing of the row it replaces; the other keys select what they did; no
    key comes to stand twice.  A request keeps the keys of both tables
    unique; each table is left as it was found or as the upsert that the
    store ran for the request makes it, so that the key of that upsert then
    selects its row and nothing else; and every row left in a table was
    there before or is the row of an upsert issued right after the reading
    of the clock that is its retrieval timestamp. *)
Theorem upserts_replace_rows_and_keep_keys_unique
  (w : World) (postalCode : string)
  (postal : list PostalRow.t) (region : list RegionRow.t) :
  (forall excluded tbl,
      NoDup (postal_keys tbl) ->
      select_postal (PostalRow.postal_code excluded) (upsert_postal excluded tbl)
        = [excluded]
      /\ (forall key, key <> PostalRow.postal_code excluded ->
            select_postal key (upsert_postal excluded tbl) = select_postal key tbl)
      /\ NoDup (postal_keys (upsert_postal excluded tbl)))
  /\ (forall excluded tbl,
      NoDup (region_keys tbl) ->
      select_region (RegionRow.economic_region_name excluded)
                    (upsert_region excluded tbl) = [excluded]
      /\ (forall key, key <> RegionRow.economic_region_name excluded ->
            select_region key (upsert_region excluded tbl) = select_region key tbl)
      /\ NoDup (region_keys (upsert_region excluded tbl)))
  /\ let st := scrape w postalCode postal region in
     (NoDup (postal_keys postal) -> NoDup (postal_keys (postal_code_data st)))
     /\ (NoDup (region_keys region) ->
         NoDup (region_keys (economic_region_data st)))
     /\ (forall r, In r (postal_code_data st) ->
           In r postal
           \/ followed_by (ClockRead (PostalRow.date_retrieved r))
                          (QueryIssued (UpsertPostal r)) (trace st))
     /\ (forall r, In r (economic_region_data st) ->
           In r region
           \/ followed_by (ClockRead (RegionRow.date_retrieved r))
                          (QueryIssued (UpsertRegion r)) (trace st))
     /\ (forall row, In (QueryDone (UpsertPostal row)) (trace st) ->
           postal_code_data st = upsert_postal row postal
           /\ (NoDup (postal_keys postal) ->
               select_postal postalCode (postal_code_data st) = [row]))
     /\ ((forall row, ~ In (QueryDone (UpsertPostal row)) (trace st)) ->
         postal_code_data st = postal)
     /\ (forall row, In (QueryDone (UpsertRegion row)) (trace st) ->
           economic_region_data st = upsert_region row region
           /\ (NoDup (region_keys region) ->
               select_region (RegionRow.economic_region_name row)
                 (economic_region_data st) = [row]))
     /\ ((forall row, ~ In (QueryDone (UpsertRegion row)) (trace st)) ->
         economic_region_data st = region).
Proof.
  split; [| split].
  - intros excluded tbl Hnd. rewrite upsert_postal_keyed.
    repeat split.
    + now apply (select_by_upsert_same _ _ _ set_postal_all).
    + intros key Hk. now apply (select_by_upsert_other _ _ _ set_postal_all).
    + now apply (upsert_by_NoDup _ _ _ set_postal_all).
  - intros excluded tbl Hnd. rewrite upsert_region_keyed.
    repeat split.
    + now apply (select_by_upsert_same _ _ _ set_region_all).
    + intros key Hk. now apply (select_by_upsert_other _ _ _ set_region_all).
    + now apply (upsert_by_NoDup _ _ _ set_region_all).
  - cbv zeta.
    destruct (scrape_applies_upserts w postalCode postal region)
      as (Hpd & Hpn & Hrd & Hrn).
    assert (Hfirst :
      (NoDup (postal_keys postal) ->
       NoDup (postal_keys (postal_code_data (scrape w postalCode postal region))))
      /\ (NoDup (region_keys region) ->
          NoDup (region_keys
                   (economic_region_data (scrape w postalCode postal region))))
      /\ (forall r,
            In r (postal_code_data (scrape w postalCode postal region)) ->
            In r postal
            \/ followed_by (ClockRead (PostalRow.date_retrieved r))
                 (QueryIssued (UpsertPostal r))
                 (trace (scrape w postalCode postal region)))
      /\ (forall r,
            In r (economic_region_data (scrape w postalCode postal region)) ->
            In r region
            \/ followed_by (ClockRead (RegionRow.date_retrieved r))
                 (QueryIssued (UpsertRegion r))
                 (trace (scrape w postalCode postal region)))).
    { destruct (scrape_writes w postalCode postal region)
        as [[Hp | (prow & Hp & Hpt)] [Hr | (rrow & Hr & Hrt)]];
        rewrite Hp, Hr; repeat split; auto.
      all: try (intros Hnd; rewrite upsert_postal_keyed;
                now apply (upsert_by_NoDup _ _ _ set_postal_all)).
      all: try (intros Hnd; rewrite upsert_region_keyed;
                now apply (upsert_by_NoDup _ _ _ set_region_all)).
      all: try (intros r Hin; rewrite upsert_postal_keyed in Hin;
                destruct (upsert_by_In _ _ _ set_postal_all _ _ _ Hin) as [? | ->];
                now auto).
      all: try (intros r Hin; rewrite upsert_region_keyed in Hin;
                destruct (upsert_by_In _ _ _ set_region_all _ _ _ Hin) as [? | ->];
                now auto). }
    destruct Hfirst as (H1 & H2 & H3 & H4).
    split; [exact H1 |]. split; [exact H2 |]. split; [exact H3 |].
    split; [exact H4 |]. split; [| split; [exact Hpn | split; [| exact Hrn]]].
    + intros row Hin. destruct (Hpd row Hin) as [Htbl Hkey].
      split; [exact Htbl |]. intros Hnd. rewrite Htbl, <- Hkey.
      rewrite upsert_postal_keyed.
      now apply (select_by_upsert_same _ _ _ set_postal_all).
    + intros row Hin. pose proof (Hrd row Hin) as Htbl.
      split; [exact Htbl |]. intros Hnd. rewrite Htbl.
      rewrite upsert_region_keyed.
      now apply (select_by_upsert_same _ _ _ set_region_all).
Qed.

Lemma upserts_replace_rows_and_keep_keys_unique_witness :
  let old := PostalRow.mk "K1A0A1" "a" "b" "c" "d" None (1000 - ms_of 31 0 0 0) in
  let new := PostalRow.mk "K1A0A1" "Ottawa" "Ottawa" "Ottawa" "Ottawa"
               (Some "region/35.aspx") 1001 in
  let st := scrape ottawa_world "K1A0A1" [old] [] in
  select_postal "K1A0A1" (upsert_postal new [old]) = [new]
  /\ postal_code_data st = upsert_postal new [old]
  /\ select_postal "K1A0A1" (postal_code_data st) = [new].
Proof.
  cbv zeta.
  destruct (upserts_replace_rows_and_keep_keys_unique ottawa_world "K1A0A1"
              [PostalRow.mk "K1A0A1" "a" "b" "c" "d" None (1000 - ms_of 31 0 0 0)]
              [])
    as (Hu & _ & _ & _ & _ & _ & Hd & _).
  assert (Hnd : NoDup (postal_keys
            [PostalRow.mk "K1A0A1" "a" "b" "c" "d" None (1000 - ms_of 31 0 0 0)])).
  { repeat constructor. intros []. }
  assert (Hin : In (QueryDone (UpsertPostal
                      (PostalRow.mk "K1A0A1" "Ottawa" "Ottawa" "Ottawa" "Ottawa"
                         (Some "region/35.aspx") 1001)))
                   (trace (scrape ottawa_world "K1A0A1"
                      [PostalRow.mk "K1A0A1" "a" "b" "c" "d" None
                         (1000 - ms_of 31 0 0 0)] []))).
  { vm_compute. auto 20. }
  destruct (Hd _ Hin) as [Htbl Hsel].
  split; [| split].
  - apply (Hu (PostalRow.mk "K1A0A1" "Ottawa" "Ottawa" "Ottawa" "Ottawa"
                 (Some "region/35.aspx") 1001) _ Hnd).
  - exact Htbl.
  - exact (Hsel Hnd).
Defined.

(** ** The order of the steps *)

(** C9, as the code has it.  When the postal row is missing or stale and the
    postal page arrives, the log of the request starts: postal read issued
    and done, (the freshness reading, if a row was found,) postal page
    fetched, clock read, postal upsert issued, region lookup called, region
    read issued.  The upsert is only issued, not awaited, before the region
    lookup is called; the connection runs it next, before it runs the region
    read, and a refusal of it ends the request there. *)
Theorem scrape_miss_order_of_steps
  (w : World) (postalCode : string)
  (postal : list PostalRow.t) (region : list RegionRow.t) (page : Page) :
  db_rejects w (SelectPostal postalCode) = false ->
  postal_miss (clock w 0) (select_postal postalCode postal) ->
  http_get w (BASE_URL ++ POSTAL_CODE_ENDPOINT ++ replace_space postalCode)
    = Some page ->
  let st := scrape w postalCode postal region in
  let cells := hd [] (select_rows "table" page) in
  let regionName := trim (anchor_text_at cells 4) in
  let regionURL := anchor_href_at cells 4 in
  exists checks now rest,
    let row := PostalRow.mk postalCode (trim (cell_text_at cells 1))
                 (trim (cell_text_at cells 2)) (trim (cell_text_at cells 3))
                 regionName (sql_text regionURL) now in
    (checks = [] \/ checks = [ClockRead (clock w 0)])
    /\ trace st
       = ([ QueryIssued (SelectPostal postalCode);
            QueryDone (SelectPostal postalCode) ]
          ++ checks
          ++ [ HttpGet PostalPage
                 (BASE_URL ++ POSTAL_CODE_ENDPOINT ++ replace_space postalCode);
               ClockRead now;
               QueryIssued (UpsertPostal row);
               RegionLookup regionName regionURL;
               QueryIssued (SelectRegion regionName) ]
          ++ rest)%list
    /\ (db_rejects w (UpsertPostal row) = false ->
        exists verdict rest',
          rest = QueryDone (UpsertPostal row) :: verdict :: rest'
          /\ (verdict = QueryDone (SelectRegion regionName)
              \/ verdict = QueryFailed (SelectRegion regionName)))
    /\ (db_rejects w (UpsertPostal row) = true ->
        rest = [ QueryFailed (UpsertPostal row);
                 UnhandledRejection (DbError (UpsertPostal row)) ]).
Proof.
  intros Hdb Hmiss Hget. cbv zeta.
  miss_cases Hmiss;
    [ paths; exists [ClockRead (clock w 0)], (clock w 1)
    | paths; exists [], (clock w 0) ].
  all: eexists; (split; [auto |]); (split; [reflexivity |]); split; intros Hv;
       try congruence; try reflexivity.
  all: do 2 eexists; split; [reflexivity | auto].
Qed.

Lemma scrape_miss_order_of_steps_witness :
  exists checks now rest,
    (checks = [] \/ checks = [ClockRead (clock ottawa_world 0)])
    /\ trace (scrape ottawa_world "K1A 0A1" [] [])
       = ([ QueryIssued (SelectPostal "K1A 0A1");
            QueryDone (SelectPostal "K1A 0A1") ]
          ++ checks
          ++ [ HttpGet PostalPage ottawa_postal_url;
               ClockRead now;
               QueryIssued (UpsertPostal
                 (PostalRow.mk "K1A 0A1" "Ottawa" "Ottawa" "Ottawa" "Ottawa"
                    (Some "region/35.aspx") now));
               RegionLookup "Ottawa" (Str "region/35.aspx");
               QueryIssued (SelectRegion "Ottawa") ]
          ++ rest)%list.
Proof.
  destruct (scrape_miss_order_of_steps ottawa_world "K1A 0A1" [] []
              ottawa_postal_page) as (checks & now & rest & H1 & H2 & _).
  - reflexivity.
  - exact I.
  - reflexivity.
  - exists checks, now, rest. split; [exact H1 | exact H2].
Defined.

(** C9, as the claim has it, fails in its last part: the region lookup is
    called, and its read issued, while the postal upsert is still to be
    run. *)
Lemma scrape_region_lookup_called_before_upsert_done :
  let row := PostalRow.mk "K1A0A1" "Ottawa" "Ottawa" "Ottawa" "Ottawa"
               (Some "region/35.aspx") 1000 in
  firstn 8 (trace (scrape ottawa_world "K1A0A1" [] []))
  = [ QueryIssued (SelectPostal "K1A0A1");
      QueryDone (SelectPostal "K1A0A1");
      HttpGet PostalPage ottawa_postal_url;
      ClockRead 1000;
      QueryIssued (UpsertPostal row);
      RegionLookup "Ottawa" (Str "region/35.aspx");
      QueryIssued (SelectRegion "Ottawa");
      QueryDone (UpsertPostal row) ].
Proof. vm_compute. reflexivity. Qed.

(** ** The two shapes of a result *)

(** The response of a request served from a fresh postal row. *)
Lemma scrape_cached_response
  (w : World) (postalCode : string)
  (postal : list PostalRow.t) (region : list RegionRow.t)
  (postalRow : PostalRow.t) :
  db_rejects w (SelectPostal postalCode) = false ->
  hd_error (select_postal postalCode postal) = Some postalRow ->
  isDataStale (clock w 0) (PostalRow.date_retrieved postalRow) = false ->
  forall r, response (scrape w postalCode postal region) = Some r ->
  exists details,
    r = {| status := 200;
           body := Obj [("data", Arr [Obj (postal_row_obj postalRow
                    ++ [("EconomicRegionDetails", Obj details)])])] |}.
Proof.
  intros Hdb Hrow Hfresh r.
  paths; intros H; try discriminate H; injection H as <-; eexists; reflexivity.
Qed.

(** The row written and the response given by a request that went through
    the postal fetch. *)
Lemma scrape_fetched_response
  (w : World) (postalCode : string)
  (postal : list PostalRow.t) (region : list RegionRow.t) (page : Page) :
  db_rejects w (SelectPostal postalCode) = false ->
  postal_miss (clock w 0) (select_postal postalCode postal) ->
  http_get w (BASE_URL ++ POSTAL_CODE_ENDPOINT ++ replace_space postalCode)
    = Some page ->
  (forall row, db_rejects w (UpsertPostal row) = false) ->
  let st := scrape w postalCode postal region in
  let cells := hd [] (select_rows "table" page) in
  exists now,
    (now = clock w 0 \/ now = clock w 1)
    /\ postal_code_data st
       = upsert_postal
           (PostalRow.mk postalCode (trim (cell_text_at cells 1))
              (trim (cell_text_at cells 2)) (trim (cell_text_at cells 3))
              (trim (anchor_text_at cells 4)) (sql_text (anchor_href_at cells 4))
              now) postal
    /\ forall r, response st = Some r -> status r = 200 ->
       exists details,
         r = {| status := 200;
                body := Obj [("data", Arr [Obj
                  [ ("PostalCode", Str (trim (cell_text_at cells 0)));
                    ("CensusSubdivisionName", Str (trim (cell_text_at cells 1)));
                    ("CommonName", Str (trim (cell_text_at cells 2)));
                    ("CensusDivisionName", Str (trim (cell_text_at cells 3)));
                    ("EIEconomicRegionName", Str (trim (anchor_text_at cells 4)));
                    ("EIEconomicRegionURL", anchor_href_at cells 4);
                    ("date_retrieved", Date now);
                    ("EconomicRegionDetails", Obj details) ]])] |}.
Proof.
  intros Hdb Hmiss Hget Hup. cbv zeta.
  miss_cases Hmiss;
    [ paths; exists (clock w 1) | paths; exists (clock w 0) ].
  all: split; [auto |]; split; [reflexivity |].
  all: intros r H Hs; try discriminate H; injection H as <-;
       first [ discriminate Hs | eexists; reflexivity ].
Qed.

(** The records handed to [res.json] on the two ways.  A request that went
    through the postal fetch and a later request for the same postal code
    served from the row the first one wrote give records with different
    property names: scraped names in the first, column names in the second.
    The names of the census subdivision, the common name, the census
    division and the region, the locator as a text, and the retrieval date
    have the same values under the two names; the postal code is the scraped
    text in the first and the key of the request in the second.  In the same
    way the region lookup returns a stored row under its column names and a
    scraped one under the scraped names, and the row it upserts holds the
    scraped values. *)
Lemma scrape_result_names_depend_on_path
  (w1 w2 : World) (postalCode : string)
  (postal : list PostalRow.t) (region : list RegionRow.t) (page : Page) :
  db_rejects w1 (SelectPostal postalCode) = false ->
  postal_miss (clock w1 0) (select_postal postalCode postal) ->
  http_get w1 (BASE_URL ++ POSTAL_CODE_ENDPOINT ++ replace_space postalCode)
    = Some page ->
  (forall row, db_rejects w1 (UpsertPostal row) = false) ->
  db_rejects w2 (SelectPostal postalCode) = false ->
  clock w2 0 - clock w1 0 <= THIRTY_DAYS_IN_MS ->
  clock w2 0 - clock w1 1 <= THIRTY_DAYS_IN_MS ->
  let st1 := scrape w1 postalCode postal region in
  let st2 := scrape w2 postalCode (postal_code_data st1) (economic_region_data st1) in
  (forall rec1 rec2,
     response st1
       = Some {| status := 200; body := Obj [("data", Arr [Obj rec1])] |} ->
     response st2
       = Some {| status := 200; body := Obj [("data", Arr [Obj rec2])] |} ->
     keys rec1
       = [ "PostalCode"; "CensusSubdivisionName"; "CommonName";
           "CensusDivisionName"; "EIEconomicRegionName"; "EIEconomicRegionURL";
           "date_retrieved"; "EconomicRegionDetails" ]
     /\ keys rec2
        = [ "postal_code"; "census_subdivision_name"; "common_name";
            "census_division_name"; "ei_economic_region_name";
            "ei_economic_region_url"; "date_retrieved"; "EconomicRegionDetails" ]
     /\ rec1 <> rec2
     /\ get_prop rec2 "postal_code" = Str postalCode
     /\ get_prop rec2 "census_subdivision_name"
        = get_prop rec1 "CensusSubdivisionName"
     /\ get_prop rec2 "common_name" = get_prop rec1 "CommonName"
     /\ get_prop rec2 "census_division_name" = get_prop rec1 "CensusDivisionName"
     /\ get_prop rec2 "ei_economic_region_name"
        = get_prop rec1 "EIEconomicRegionName"
     /\ sql_text (get_prop rec2 "ei_economic_region_url")
        = sql_text (get_prop rec1 "EIEconomicRegionURL")
     /\ get_prop rec2 "date_retrieved" = get_prop rec1 "date_retrieved")
  /\ (forall regionName regionURL econRow,
        db_rejects w1 (SelectRegion regionName) = false ->
        hd_error (select_region regionName region) = Some econRow ->
        clock w1 0 - RegionRow.date_retrieved econRow <= THIRTY_DAYS_IN_MS ->
        fst (getEconomicRegionData w1 regionName regionURL (idle postal region))
        = Return (region_row_obj econRow))
  /\ (forall regionName regionURL rpage,
        db_rejects w1 (SelectRegion regionName) = false ->
        hd_error (select_region regionName region) = None ->
        http_get w1 (BASE_URL ++ template regionURL) = Some rpage ->
        select_rows "regions" rpage <> [] ->
        let cells := last (select_rows "regions" rpage) [] in
        let out := getEconomicRegionData w1 regionName regionURL
                     (idle postal region) in
        fst out
        = Return
            [ ("Province", Str (trim (cell_text_at cells 0)));
              ("EconomicRegionCode", Str (trim (cell_text_at cells 1)));
              ("EconomicRegionName", Str (trim (cell_text_at cells 2)));
              ("UnemploymentRate", Str (trim (cell_text_at cells 3)));
              ("InsuredHoursRequired", Str (trim (cell_text_at cells 4)));
              ("MinWeeksPayable", Str (trim (cell_text_at cells 5)));
              ("MaxWeeksPayable", Str (trim (cell_text_at cells 6)));
              ("BestWeeksRequired", Str (trim (cell_text_at cells 7)));
              ("date_retrieved", Date (clock w1 0)) ]
        /\ pending (snd out)
           = [ UpsertRegion
                 (RegionRow.mk regionName
                    (Some (trim (cell_text_at cells 0)))
                    (Some (trim (cell_text_at cells 1)))
                    (Some (trim (cell_text_at cells 3)))
                    (Some (trim (cell_text_at cells 4)))
                    (Some (trim (cell_text_at cells 5)))
                    (Some (trim (cell_text_at cells 6)))
                    (Some (trim (cell_text_at cells 7)))
                    (clock w1 0)) ]).
Proof.
  intros Hdb1 Hmiss Hget Hup Hdb2 Hf0 Hf1. cbv zeta.
  split; [| split].
  - destruct (scrape_fetched_response w1 postalCode postal region page
                Hdb1 Hmiss Hget Hup) as (now & Hnow & Htbl & Hresp).
    assert (Hage : clock w2 0 - now <= THIRTY_DAYS_IN_MS).
    { destruct Hnow as [Hn | Hn]; rewrite Hn; [exact Hf0 | exact Hf1]. }
    clear Hnow Hf0 Hf1 Hmiss Hget Hup Hdb1.
    rewrite Htbl. clear Htbl.
    match goal with
    | |- context [upsert_postal ?row postal] => remember row as row1 eqn:Erow
    end.
    assert (Hkey : PostalRow.postal_code row1 = postalCode) by now subst row1.
    assert (Hdate : PostalRow.date_retrieved row1 = now) by now subst row1.
    assert (Hsel : hd_error (select_postal postalCode (upsert_postal row1 postal))
                   = Some row1).
    { rewrite upsert_postal_keyed, <- Hkey.
      exact (select_by_upsert_first _ _ _ set_postal_all row1 postal). }
    assert (Hfresh : isDataStale (clock w2 0) (PostalRow.date_retrieved row1) = false).
    { apply isDataStale_within. rewrite Hdate. exact Hage. }
    pose proof (scrape_cached_response w2 postalCode
                  (upsert_postal row1 postal)
                  (economic_region_data (scrape w1 postalCode postal region))
                  row1 Hdb2 Hsel Hfresh) as Hc.
    intros rec1 rec2 Hr1 Hr2.
    destruct (Hresp _ Hr1 eq_refl) as (details1 & E1).
    destruct (Hc _ Hr2) as (details2 & E2).
    clear Hresp Hc Hr1 Hr2 Hsel Hfresh.
    injection E1 as ->. injection E2 as ->. subst row1.
    cbn. repeat split.
    + intros H. discriminate H.
    + now destruct (anchor_href_at (hd [] (select_rows "table" page)) 4).
  - intros regionName regionURL econRow Hdbr Hsel Hfresh.
    apply isDataStale_within in Hfresh.
    paths_of (getEconomicRegionData w1 regionName regionURL (idle postal region)).
    reflexivity.
  - intros regionName regionURL rpage Hdbr Hsel Hrget Hrows.
    destruct (select_rows "regions" rpage) as [| r0 rows] eqn:Erows;
      [congruence |].
    pose proof (extract_region_nonempty rpage r0 rows Erows) as Hex.
    paths_of (getEconomicRegionData w1 regionName regionURL (idle postal region)).
    rewrite Hex. split; reflexivity.
Qed.

Lemma scrape_result_names_depend_on_path_witness :
  let st1 := scrape ottawa_world "K1A0A1" [] [] in
  let st2 := scrape ottawa_world "K1A0A1"
               (postal_code_data st1) (economic_region_data st1) in
  exists rec1 rec2,
    response st1
      = Some {| status := 200; body := Obj [("data", Arr [Obj rec1])] |}
    /\ response st2
       = Some {| status := 200; body := Obj [("data", Arr [Obj rec2])] |}
    /\ rec1 <> rec2
    /\ get_prop rec2 "common_name" = get_prop rec1 "CommonName".
Proof.
  cbv zeta.
  assert (H1 : exists rec1,
             response (scrape ottawa_world "K1A0A1" [] [])
             = Some {| status := 200; body := Obj [("data", Arr [Obj rec1])] |})
    by (eexists; vm_compute; reflexivity).
  destruct H1 as [rec1 H1].
  assert (H2 : exists rec2,
             response (scrape ottawa_world "K1A0A1"
                         (postal_code_data (scrape ottawa_world "K1A0A1" [] []))
                         (economic_region_data (scrape ottawa_world "K1A0A1" [] [])))
             = Some {| status := 200; body := Obj [("data", Arr [Obj rec2])] |})
    by (eexists; vm_compute; reflexivity).
  destruct H2 as [rec2 H2].
  exists rec1, rec2.
  destruct (scrape_result_names_depend_on_path ottawa_world ottawa_world
              "K1A0A1" [] [] ottawa_postal_page) as [H _].
  - reflexivity.
  - exact I.
  - reflexivity.
  - reflexivity.
  - reflexivity.
  - vm_compute. discriminate.
  - vm_compute. discriminate.
  - destruct (H rec1 rec2 H1 H2) as (_ & _ & Hne & _ & _ & Hcn & _).
    repeat split; assumption.
Defined.

(** C10, at the failing input.  The same postal code asked twice, the
    store empty at first, the same pages: the first request fetches, the
    second is served from the rows the first one wrote, and the two records
    that go out have different property names. *)
Lemma scrape_hit_result_differs_from_miss_result :
  let st1 := scrape ottawa_world "K1A0A1" [] [] in
  let st2 := scrape ottawa_world "K1A0A1"
               (postal_code_data st1) (economic_region_data st1) in
  exists r1 r2,
    response st1 = Some r1 /\ response st2 = Some r2
    /\ status r1 = 200 /\ status r2 = 200
    /\ (forall site url, ~ In (HttpGet site url) (trace st2))
    /\ record_keys (json_of (body r1))
       = [ "PostalCode"; "CensusSubdivisionName"; "CommonName";
           "CensusDivisionName"; "EIEconomicRegionName"; "EIEconomicRegionURL";
           "date_retrieved"; "EconomicRegionDetails" ]
    /\ record_keys (json_of (body r2))
       = [ "postal_code"; "census_subdivision_name"; "common_name";
           "census_division_name"; "ei_economic_region_name";
           "ei_economic_region_url"; "date_retrieved"; "EconomicRegionDetails" ]
    /\ json_of (body r1) <> json_of (body r2).
Proof.
  vm_compute. do 2 eexists.
  split; [reflexivity |]. split; [reflexivity |].
  split; [reflexivity |]. split; [reflexivity |].
  split.
  - intros site url H.
    repeat (destruct H as [H | H]; [discriminate H |]). exact H.
  - split; [reflexivity |]. split; [reflexivity |].
    intros H. discriminate H.
Qed.

(** * Further properties of the handler *)

(** ** One attempt at everything *)

(** X1.  Whatever happens, a request fetches each of the two pages at most
    once, issues each of the two upserts at most once, calls the region
    lookup at most once, reads the clock at most four times and sends at
    most one response; the response it holds at the end is the one in its
    log. *)
Theorem scrape_does_everything_at_most_once
  (w : World) (postalCode : string)
  (postal : list PostalRow.t) (region : list RegionRow.t) :
  let st := scrape w postalCode postal region in
  (count_events (is_fetch PostalPage) (trace st) <= 1)%nat
  /\ (count_events (is_fetch RegionPage) (trace st) <= 1)%nat
  /\ (count_events is_postal_upsert (trace st) <= 1)%nat
  /\ (count_events is_region_upsert (trace st) <= 1)%nat
  /\ (count_events is_region_lookup (trace st) <= 1)%nat
  /\ (count_events is_clock_read (trace st) <= 4)%nat
  /\ match response st with
     | Some r => In (Responded r) (trace st)
                 /\ count_events is_response (trace st) = 1%nat
     | None => count_events is_response (trace st) = 0%nat
     end.
Proof.
  cbv zeta. paths.
  all: unfold count_events; cbn; repeat split; auto 20 with arith.
Qed.

(** ** The postal read refused *)

(** X2.  When the store refuses the read of the postal table, the request
    does nothing more than answer "Database error": no clock reading, no
    fetch, no region lookup, no upsert, both tables as they were. *)
Theorem scrape_postal_read_refused_stops
  (w : World) (postalCode : string)
  (postal : list PostalRow.t) (region : list RegionRow.t) :
  db_rejects w (SelectPostal postalCode) = true ->
  let st := scrape w postalCode postal region in
  trace st = [ QueryIssued (SelectPostal postalCode);
               QueryFailed (SelectPostal postalCode);
               Responded database_error ]
  /\ response st = Some database_error
  /\ postal_code_data st = postal
  /\ economic_region_data st = region
  /\ ticks st = 0%nat
  /\ pending st = [].
Proof.
  intros Hdb. cbv zeta. paths. repeat split.
Qed.

Lemma scrape_postal_read_refused_stops_witness :
  let st := scrape postal_store_down_world "K1A0A1" [ottawa_postal_row] [] in
  response st = Some database_error /\ postal_code_data st = [ottawa_postal_row].
Proof.
  cbv zeta.
  destruct (scrape_postal_read_refused_stops postal_store_down_world "K1A0A1"
              [ottawa_postal_row] []) as (_ & H2 & H3 & _).
  - reflexivity.
  - split; assumption.
Defined.

(** ** More on upserts *)

Section KeyedMore.

Variable A : Type.
Variable key : A -> string.
Variable merge : A -> A -> A.
Hypothesis merge_all : forall old excluded,
  key old = key excluded -> merge old excluded = excluded.

Lemma upsert_by_idempotent (excluded : A) (tbl : list A) :
  upsert_by key merge excluded (upsert_by key merge excluded tbl)
  = upsert_by key merge excluded tbl.
Proof.
  induction tbl as [| old tbl IH]; cbn.
  - now rewrite String.eqb_refl, (merge_all excluded excluded eq_refl).
  - destruct (String.eqb_spec (key old) (key excluded)) as [E | E]; cbn.
    + rewrite (merge_all old excluded E), String.eqb_refl.
      now rewrite (merge_all excluded excluded eq_refl).
    + destruct (String.eqb_spec (key old) (key excluded)); [contradiction|].
      now rewrite IH.
Qed.

Lemma select_by_none_absent (k : string) (tbl : list A) :
  hd_error (select_by key k tbl) = None -> ~ In k (map key tbl).
Proof.
  unfold select_by. induction tbl as [| r tbl IH]; cbn; [tauto |].
  destruct (String.eqb_spec (key r) k) as [E | E]; cbn; [discriminate |].
  intros H [Hin | Hin]; [contradiction | now apply IH].
Qed.

Lemma upsert_by_absent (excluded : A) (tbl : list A) :
  ~ In (key excluded) (map key tbl) ->
  upsert_by key merge excluded tbl = (tbl ++ [excluded])%list.
Proof.
  induction tbl as [| old tbl IH]; cbn; [reflexivity |].
  intros H. destruct (String.eqb_spec (key old) (key excluded)) as [E | E].
  - exfalso. apply H. now left.
  - rewrite IH; [reflexivity |]. intros Hin. apply H. now right.
Qed.

Lemma upsert_by_length (excluded : A) (tbl : list A) :
  length (upsert_by key merge excluded tbl)
  = if existsb (fun r => String.eqb (key r) (key excluded)) tbl
    then length tbl else S (length tbl).
Proof.
  induction tbl as [| old tbl IH]; cbn; [reflexivity |].
  destruct (String.eqb (key old) (key excluded)); cbn; [reflexivity |].
  rewrite IH. now destruct (existsb _ tbl).
Qed.

End KeyedMore.

(** X3.  Repeating an upsert changes nothing more: for both tables, the
    same row upserted twice leaves the table that one upsert leaves.  An
    upsert never removes a row: the table keeps its length when the key was
    there and grows by one row, put last, when it was not. *)
Theorem upsert_twice_is_upsert_once :
  (forall row tbl,
      upsert_postal row (upsert_postal row tbl) = upsert_postal row tbl)
  /\ (forall row tbl,
      upsert_region row (upsert_region row tbl) = upsert_region row tbl)
  /\ (forall row tbl,
      hd_error (select_postal (PostalRow.postal_code row) tbl) = None ->
      upsert_postal row tbl = (tbl ++ [row])%list)
  /\ (forall row tbl,
      hd_error (select_region (RegionRow.economic_region_name row) tbl) = None ->
      upsert_region row tbl = (tbl ++ [row])%list)
  /\ (forall row tbl old,
      hd_error (select_postal (PostalRow.postal_code row) tbl) = Some old ->
      length (upsert_postal row tbl) = length tbl)
  /\ (forall row tbl old,
      hd_error (select_region (RegionRow.economic_region_name row) tbl) = Some old ->
      length (upsert_region row tbl) = length tbl).
Proof.
  repeat split.
  - intros row tbl. rewrite !upsert_postal_keyed.
    apply upsert_by_idempotent, set_postal_all.
  - intros row tbl. rewrite !upsert_region_keyed.
    apply upsert_by_idempotent, set_region_all.
  - intros row tbl H. rewrite upsert_postal_keyed.
    apply upsert_by_absent. now apply select_by_none_absent.
  - intros row tbl H. rewrite upsert_region_keyed.
    apply upsert_by_absent. now apply select_by_none_absent.
  - intros row tbl old H. rewrite upsert_postal_keyed, upsert_by_length.
    destruct (existsb _ tbl) eqn:E; [reflexivity | exfalso].
    revert H. unfold select_postal.
    induction tbl as [| r tbl IH]; cbn in *; [discriminate |].
    destruct (String.eqb (PostalRow.postal_code r) (PostalRow.postal_code row));
      cbn in *; [discriminate | auto].
  - intros row tbl old H. rewrite upsert_region_keyed, upsert_by_length.
    destruct (existsb _ tbl) eqn:E; [reflexivity | exfalso].
    revert H. unfold select_region.
    induction tbl as [| r tbl IH]; cbn in *; [discriminate |].
    destruct (String.eqb (RegionRow.economic_region_name r)
                         (RegionRow.economic_region_name row));
      cbn in *; [discriminate | auto].
Qed.

Lemma upsert_twice_is_upsert_once_witness :
  upsert_postal ottawa_postal_row [] = ([] ++ [ottawa_postal_row])%list
  /\ upsert_postal ottawa_postal_row (upsert_postal ottawa_postal_row [])
     = upsert_postal ottawa_postal_row [].
Proof.
  destruct upsert_twice_is_upsert_once as (H1 & _ & H3 & _).
  split; [apply H3; reflexivity | apply H1].
Defined.

(** ** What a request leaves alone *)

(** The keys of the rows a request writes: its own postal code, and the
    region name it called the region lookup with. *)
Lemma scrape_write_keys (w : World) (postalCode : string)
  (postal : list PostalRow.t) (region : list RegionRow.t) :
  let st := scrape w postalCode postal region in
  (postal_code_data st = postal
   \/ exists row,
        postal_code_data st = upsert_postal row postal
        /\ PostalRow.postal_code row = postalCode)
  /\ (economic_region_data st = region
      \/ exists row regionURL,
           economic_region_data st = upsert_region row region
           /\ In (RegionLookup (RegionRow.economic_region_name row) regionURL)
                 (trace st)).
Proof.
  cbv zeta. paths.
  all: split;
    first [ left; reflexivity
          | right; eexists; split; [reflexivity | reflexivity]
          | right; do 2 eexists; split; [reflexivity | cbn; auto 20] ].
Qed.

(** X4.  A request changes no row but its own: every other postal code
    selects after the request the rows it selected before, and so does every
    region name the request did not call the region lookup with. *)
Theorem scrape_touches_only_its_own_keys
  (w : World) (postalCode : string)
  (postal : list PostalRow.t) (region : list RegionRow.t) :
  let st := scrape w postalCode postal region in
  (forall key, key <> postalCode ->
     select_postal key (postal_code_data st) = select_postal key postal)
  /\ (forall key,
        (forall regionURL, ~ In (RegionLookup key regionURL) (trace st)) ->
        select_region key (economic_region_data st) = select_region key region).
Proof.
  cbv zeta.
  destruct (scrape_write_keys w postalCode postal region)
    as [[Hp | (prow & Hp & Hk)] [Hr | (rrow & url & Hr & Hin)]];
    rewrite Hp, Hr; split; try reflexivity.
  all: try (intros key Hne; rewrite upsert_postal_keyed;
            apply (select_by_upsert_other _ _ _ set_postal_all);
            now rewrite Hk).
  all: intros key Hno; rewrite upsert_region_keyed;
       apply (select_by_upsert_other _ _ _ set_region_all);
       intros ->; exact (Hno url Hin).
Qed.

Lemma scrape_touches_only_its_own_keys_witness :
  select_postal "K1A0A1"
    (postal_code_data (scrape ottawa_world "K1A 0A1" [ottawa_postal_row] []))
  = select_postal "K1A0A1" [ottawa_postal_row].
Proof.
  destruct (scrape_touches_only_its_own_keys ottawa_world "K1A 0A1"
              [ottawa_postal_row] []) as (H & _).
  apply H. discriminate.
Defined.

(** X5.  A request never removes a row: every key of either table is still
    a key afterwards, and each table has afterwards the rows it had or one
    more. *)
Theorem scrape_never_removes_rows
  (w : World) (postalCode : string)
  (postal : list PostalRow.t) (region : list RegionRow.t) :
  let st := scrape w postalCode postal region in
  (forall key, In key (postal_keys postal) ->
     In key (postal_keys (postal_code_data st)))
  /\ (forall key, In key (region_keys region) ->
        In key (region_keys (economic_region_data st)))
  /\ (length postal <= length (postal_code_data st) <= S (length postal))%nat
  /\ (length region <= length (economic_region_data st) <= S (length region))%nat.
Proof.
  cbv zeta.
  assert (Hpk : forall row k, In k (postal_keys postal) ->
                  In k (postal_keys (upsert_postal row postal))).
  { intros row k Hin. rewrite upsert_postal_keyed. unfold postal_keys.
    destruct (upsert_by_keys _ _ _ set_postal_all row postal) as [E | [_ E]];
      rewrite E; [exact Hin | apply in_or_app; now left]. }
  assert (Hrk : forall row k, In k (region_keys region) ->
                  In k (region_keys (upsert_region row region))).
  { intros row k Hin. rewrite upsert_region_keyed. unfold region_keys.
    destruct (upsert_by_keys _ _ _ set_region_all row region) as [E | [_ E]];
      rewrite E; [exact Hin | apply in_or_app; now left]. }
  assert (Hpl : forall row,
             (length postal <= length (upsert_postal row postal)
              <= S (length postal))%nat).
  { intros row. rewrite upsert_postal_keyed, upsert_by_length.
    destruct (existsb _ postal); split; auto. }
  assert (Hrl : forall row,
             (length region <= length (upsert_region row region)
              <= S (length region))%nat).
  { intros row. rewrite upsert_region_keyed, upsert_by_length.
    destruct (existsb _ region); split; auto. }
  destruct (scrape_write_keys w postalCode postal region)
    as [[Hp | (prow & Hp & _)] [Hr | (rrow & url & Hr & _)]];
    rewrite Hp, Hr; repeat split; auto; try apply Hpl; try apply Hrl.
Qed.

Lemma scrape_never_removes_rows_witness :
  In "K1A0A1"
     (postal_keys
        (postal_code_data (scrape ottawa_world "K1A 0A1" [ottawa_postal_row] []))).
Proof.
  destruct (scrape_never_removes_rows ottawa_world "K1A 0A1"
              [ottawa_postal_row] []) as (H & _).
  apply H. left. reflexivity.
Defined.

(** ** The request on an empty cache *)

Lemma upsert_postal_absent (row : PostalRow.t) (tbl : list PostalRow.t) :
  hd_error (select_postal (PostalRow.postal_code row) tbl) = None ->
  upsert_postal row tbl = (tbl ++ [row])%list.
Proof.
  intros H. rewrite upsert_postal_keyed.
  apply upsert_by_absent. now apply select_by_none_absent.
Qed.

Lemma upsert_region_absent (row : RegionRow.t) (tbl : list RegionRow.t) :
  hd_error (select_region (RegionRow.economic_region_name row) tbl) = None ->
  upsert_region row tbl = (tbl ++ [row])%list.
Proof.
  intros H. rewrite upsert_region_keyed.
  apply upsert_by_absent. now apply select_by_none_absent.
Qed.

(** X6.  With neither row in the store, a store that accepts every query
    and both pages fetched, the region table having at least one row: the
    response is a 200 whose record has the five scraped postal fields, the
    locator, the first clock reading and, as region detail, the fields of
    the last region row with the second clock reading; each table gains one
    row, put last, holding those values under the key of the request and
    the scraped region name. *)
Theorem scrape_on_empty_cache
  (w : World) (postalCode : string)
  (postal : list PostalRow.t) (region : list RegionRow.t)
  (page rpage : Page) :
  (forall q, db_rejects w q = false) ->
  let cells := hd [] (select_rows "table" page) in
  let regionName := trim (anchor_text_at cells 4) in
  let regionURL := anchor_href_at cells 4 in
  hd_error (select_postal postalCode postal) = None ->
  hd_error (select_region regionName region) = None ->
  http_get w (BASE_URL ++ POSTAL_CODE_ENDPOINT ++ replace_space postalCode)
    = Some page ->
  http_get w (BASE_URL ++ template regionURL) = Some rpage ->
  select_rows "regions" rpage <> [] ->
  let rcells := last (select_rows "regions" rpage) [] in
  let st := scrape w postalCode postal region in
  response st
  = Some
      {| status := 200;
         body := Obj [("data", Arr [Obj
           [ ("PostalCode", Str (trim (cell_text_at cells 0)));
             ("CensusSubdivisionName", Str (trim (cell_text_at cells 1)));
             ("CommonName", Str (trim (cell_text_at cells 2)));
             ("CensusDivisionName", Str (trim (cell_text_at cells 3)));
             ("EIEconomicRegionName", Str regionName);
             ("EIEconomicRegionURL", regionURL);
             ("date_retrieved", Date (clock w 0));
             ("EconomicRegionDetails", Obj
               [ ("Province", Str (trim (cell_text_at rcells 0)));
                 ("EconomicRegionCode", Str (trim (cell_text_at rcells 1)));
                 ("EconomicRegionName", Str (trim (cell_text_at rcells 2)));
                 ("UnemploymentRate", Str (trim (cell_text_at rcells 3)));
                 ("InsuredHoursRequired", Str (trim (cell_text_at rcells 4)));
                 ("MinWeeksPayable", Str (trim (cell_text_at rcells 5)));
                 ("MaxWeeksPayable", Str (trim (cell_text_at rcells 6)));
                 ("BestWeeksRequired", Str (trim (cell_text_at rcells 7)));
                 ("date_retrieved", Date (clock w 1)) ]) ]])] |}
  /\ postal_code_data st
     = (postal ++
        [ PostalRow.mk postalCode (trim (cell_text_at cells 1))
            (trim (cell_text_at cells 2)) (trim (cell_text_at cells 3))
            regionName (sql_text regionURL) (clock w 0) ])%list
  /\ economic_region_data st
     = (region ++
        [ RegionRow.mk regionName
            (Some (trim (cell_text_at rcells 0)))
            (Some (trim (cell_text_at rcells 1)))
            (Some (trim (cell_text_at rcells 3)))
            (Some (trim (cell_text_at rcells 4)))
            (Some (trim (cell_text_at rcells 5)))
            (Some (trim (cell_text_at rcells 6)))
            (Some (trim (cell_text_at rcells 7)))
            (clock w 1) ])%list
  /\ pending st = [].
Proof.
  intros Hdb cells regionName regionURL Hp Hr Hget Hrget Hrows rcells.
  destruct (select_rows "regions" rpage) as [| r0 rows] eqn:Erows;
    [congruence |].
  pose proof (extract_region_nonempty rpage r0 rows Erows) as Hex.
  subst cells regionName regionURL rcells. cbv zeta.
  paths. rewrite Hex. cbn.
  split; [reflexivity |]. split; [| split; [| reflexivity]].
  - apply upsert_postal_absent. exact Hp.
  - apply upsert_region_absent. exact Hr.
Qed.

Lemma scrape_on_empty_cache_witness :
  let st := scrape ottawa_world "K1A0A1" [] [] in
  postal_code_data st
  = [ PostalRow.mk "K1A0A1" "Ottawa" "Ottawa" "Ottawa" "Ottawa"
        (Some "region/35.aspx") 1000 ]
  /\ economic_region_data st
     = [ RegionRow.mk "Ottawa" (Some "ON") (Some "3520") (Some "5.6")
           (Some "420") (Some "14") (Some "45") (Some "14-22") 1001 ].
Proof.
  cbv zeta.
  destruct (scrape_on_empty_cache ottawa_world "K1A0A1" [] []
              ottawa_postal_page ottawa_region_page)
    as (_ & H2 & H3 & _).
  - reflexivity.
  - reflexivity.
  - reflexivity.
  - reflexivity.
  - reflexivity.
  - discriminate.
  - split; [exact H2 | exact H3].
Defined.

(** ** Requests that get no answer *)

(** X7.  Served from a fresh postal row, a request whose region lookup
    fails (the read of the region table refused, or the region row missing
    or stale and the region page not to be fetched) sends no response: the
    exception leaves the callback, the log ends with the rejection nobody
    handles, nothing is written. *)
Theorem scrape_cached_region_failure_unanswered
  (w : World) (postalCode : string)
  (postal : list PostalRow.t) (region : list RegionRow.t)
  (postalRow : PostalRow.t) :
  db_rejects w (SelectPostal postalCode) = false ->
  hd_error (select_postal postalCode postal) = Some postalRow ->
  clock w 0 - PostalRow.date_retrieved postalRow <= THIRTY_DAYS_IN_MS ->
  let regionName := PostalRow.ei_economic_region_name postalRow in
  let url := BASE_URL
             ++ template (of_sql_text (PostalRow.ei_economic_region_url postalRow)) in
  let st := scrape w postalCode postal region in
  (db_rejects w (SelectRegion regionName) = true ->
   response st = None
   /\ last (trace st) (ClockRead 0)
      = UnhandledRejection (DbError (SelectRegion regionName))
   /\ postal_code_data st = postal /\ economic_region_data st = region)
  /\ (db_rejects w (SelectRegion regionName) = false ->
      region_miss (clock w 1) (select_region regionName region) ->
      http_get w url = None ->
      response st = None
      /\ last (trace st) (ClockRead 0) = UnhandledRejection (HttpError url)
      /\ postal_code_data st = postal /\ economic_region_data st = region).
Proof.
  intros Hdb Hrow Hfresh. apply isDataStale_within in Hfresh. cbv zeta. split.
  - intros Hrej. paths. repeat split.
  - intros Hok Hmiss Hget. miss_cases Hmiss; paths; repeat split.
Qed.

Lemma scrape_cached_region_failure_unanswered_witness :
  response (scrape region_store_down_world "K1A0A1" [ottawa_postal_row] [])
  = None.
Proof.
  destruct (scrape_cached_region_failure_unanswered region_store_down_world
              "K1A0A1" [ottawa_postal_row] [] ottawa_postal_row) as (H & _).
  - reflexivity.
  - reflexivity.
  - vm_compute. discriminate.
  - apply H. reflexivity.
Defined.

(** X8.  With a store that accepts the postal upsert, a request ends
    without a response in two cases only.  Either it was served from a
    fresh postal row and its region lookup failed; or its [postalCode]
    parameter is no string and no fresh row was selected for it, so that
    [postalCode.replace] threw before the [try].  In the second case the log
    ends with the rejection nobody handles and nothing is written. *)
Theorem scrape_unanswered_only_on_cached_region_failure
  (w : World) (postalCode : QueryParam)
  (postal : list PostalRow.t) (region : list RegionRow.t) :
  (forall row, db_rejects w (UpsertPostal row) = false) ->
  let st := scrape_request w postalCode postal region in
  (response st = None ->
   (exists postalRow,
      hd_error (param_rows postalCode postal) = Some postalRow
      /\ isDataStale (clock w 0) (PostalRow.date_retrieved postalRow) = false
      /\ (db_rejects w (SelectRegion (PostalRow.ei_economic_region_name postalRow))
          = true
          \/ http_get w
               (BASE_URL
                ++ template (of_sql_text (PostalRow.ei_economic_region_url postalRow)))
             = None))
   \/ (exists bound,
         postalCode = ParamOther bound
         /\ In (UnhandledRejection TypeError) (trace st)))
  /\ (forall bound,
        postalCode = ParamOther bound ->
        db_rejects w (param_select postalCode) = false ->
        postal_miss (clock w 0) (param_rows postalCode postal) ->
        response st = None
        /\ last (trace st) (ClockRead 0) = UnhandledRejection TypeError
        /\ postal_code_data st = postal
        /\ economic_region_data st = region
        /\ (forall site url, ~ In (HttpGet site url) (trace st))).
Proof.
  intros Hup. cbv zeta. split.
  - destruct postalCode as [s | [text |]]; cbn [param_rows param_key].
    + paths_of (scrape_request w (ParamString s) postal region);
        intros H; try discriminate H.
      all: left; eexists; split; [reflexivity |]; split; [assumption |]; auto.
    + paths_of (scrape_request w (ParamOther (Some text)) postal region);
        intros H; try discriminate H.
      all: first
        [ left; eexists; split; [reflexivity |]; split; [assumption |];
          solve [auto]
        | right; eexists; split; [reflexivity |]; cbn; auto 20 ].
    + paths_of (scrape_request w (ParamOther None) postal region);
        intros H; try discriminate H.
      right; eexists; split; [reflexivity |]; cbn; auto 20.
  - intros bound -> Hdb Hmiss.
    destruct bound as [text |]; cbn [param_select param_rows param_key] in *.
    + miss_cases Hmiss;
        paths_of (scrape_request w (ParamOther (Some text)) postal region);
        repeat split; intros site url H; in_log H.
    + paths_of (scrape_request w (ParamOther None) postal region).
      repeat split. intros site url H; in_log H.
Qed.

Lemma scrape_unanswered_only_on_cached_region_failure_witness :
  let st := scrape_request ottawa_world (ParamOther None) [ottawa_postal_row] [] in
  response st = None
  /\ last (trace st) (ClockRead 0) = UnhandledRejection TypeError
  /\ postal_code_data st = [ottawa_postal_row].
Proof.
  cbv zeta.
  destruct (scrape_unanswered_only_on_cached_region_failure ottawa_world
              (ParamOther None) [ottawa_postal_row] []) as [_ H].
  - reflexivity.
  - destruct (H None) as (H1 & H2 & H3 & _).
    + reflexivity.
    + reflexivity.
    + exact I.
    + repeat split; assumption.
Defined.

(** ** The shape of a response *)

Lemma get_set_prop_same (o : obj) (k : string) (v : jsval) :
  get_prop (set_prop o k v) k = v.
Proof.
  induction o as [| [k' v'] o IH]; cbn.
  - now rewrite String.eqb_refl.
  - destruct (String.eqb k' k) eqn:E; cbn; rewrite E; [reflexivity | exact IH].
Qed.

(** X9.  A response is one of three things: the database error, the scrape
    error, or a 200 whose body has a [data] array of exactly one record;
    that record has a retrieval date and, under [EconomicRegionDetails], an
    object with a retrieval date of its own. *)
Theorem scrape_response_shape
  (w : World) (postalCode : string)
  (postal : list PostalRow.t) (region : list RegionRow.t) :
  forall r, response (scrape w postalCode postal region) = Some r ->
  r = database_error
  \/ r = scrape_error
  \/ exists record details t t',
       r = {| status := 200; body := Obj [("data", Arr [Obj record])] |}
       /\ get_prop record "date_retrieved" = Date t
       /\ get_prop record "EconomicRegionDetails" = Obj details
       /\ get_prop details "date_retrieved" = Date t'.
Proof.
  intros r. paths; intros H; try discriminate H; injection H as <-; auto.
  all: right; right; do 4 eexists; split; [reflexivity |];
       split; [reflexivity |]; split; [reflexivity |];
       first [ reflexivity | apply get_set_prop_same ].
Qed.

Lemma scrape_response_shape_witness :
  database_error = database_error
  \/ database_error = scrape_error
  \/ exists record details t t',
       database_error
       = {| status := 200; body := Obj [("data", Arr [Obj record])] |}
       /\ get_prop record "date_retrieved" = Date t
       /\ get_prop record "EconomicRegionDetails" = Obj details
       /\ get_prop details "date_retrieved" = Date t'.
Proof.
  apply (scrape_response_shape postal_store_down_world "K1A0A1" [] []
           database_error).
  vm_compute. reflexivity.
Defined.

(** ** The fully cached request *)

(** X10.  With both rows in the store and fresh, the request is two reads
    and two readings of the clock and nothing else: no fetch, no upsert,
    both tables as they were, and the response made of the two rows. *)
Theorem scrape_fully_cached_reads_only
  (w : World) (postalCode : string)
  (postal : list PostalRow.t) (region : list RegionRow.t)
  (postalRow : PostalRow.t) (econRow : RegionRow.t) :
  (forall q, db_rejects w q = false) ->
  hd_error (select_postal postalCode postal) = Some postalRow ->
  clock w 0 - PostalRow.date_retrieved postalRow <= THIRTY_DAYS_IN_MS ->
  let regionName := PostalRow.ei_economic_region_name postalRow in
  let regionURL := of_sql_text (PostalRow.ei_economic_region_url postalRow) in
  hd_error (select_region regionName region) = Some econRow ->
  clock w 1 - RegionRow.date_retrieved econRow <= THIRTY_DAYS_IN_MS ->
  let st := scrape w postalCode postal region in
  exists r,
    response st = Some r
    /\ r = {| status := 200;
              body := Obj [("data", Arr [Obj (postal_row_obj postalRow
                       ++ [("EconomicRegionDetails",
                            Obj (region_row_obj econRow))])])] |}
    /\ trace st = [ QueryIssued (SelectPostal postalCode);
                    QueryDone (SelectPostal postalCode);
                    ClockRead (clock w 0);
                    RegionLookup regionName regionURL;
                    QueryIssued (SelectRegion regionName);
                    QueryDone (SelectRegion regionName);
                    ClockRead (clock w 1);
                    Responded r ]
    /\ postal_code_data st = postal
    /\ economic_region_data st = region.
Proof.
  intros Hdb Hrow Hfresh regionName regionURL Hreg Hrfresh.
  apply isDataStale_within in Hfresh. apply isDataStale_within in Hrfresh.
  subst regionName regionURL. cbv zeta.
  paths. eexists. repeat split.
Qed.

Lemma scrape_fully_cached_reads_only_witness :
  let st := scrape remote_down_world "K1A0A1"
              [ottawa_postal_row] [ottawa_region_row] in
  exists r, response st = Some r /\ status r = 200
            /\ economic_region_data st = [ottawa_region_row].
Proof.
  cbv zeta.
  destruct (scrape_fully_cached_reads_only remote_down_world "K1A0A1"
              [ottawa_postal_row] [ottawa_region_row]
              ottawa_postal_row ottawa_region_row)
    as (r & H1 & H2 & _ & _ & H5).
  - reflexivity.
  - reflexivity.
  - vm_compute. discriminate.
  - reflexivity.
  - vm_compute. discriminate.
  - exists r. split; [exact H1 |]. split; [now rewrite H2 | exact H5].
Defined.

(** ** Where the fetches go *)

Lemma prefix_append (s t : string) : String.prefix s (s ++ t) = true.
Proof.
  induction s as [| c s IH]; cbn.
  - now destruct t.
  - unfold String.append; fold String.append. cbn.
    destruct (ascii_dec c c); [exact IH | contradiction].
Qed.

Lemma string_app_assoc (a b c : string) : ((a ++ b) ++ c = a ++ b ++ c)%string.
Proof.
  induction a as [| x a IH]; [reflexivity |].
  unfold String.append; fold String.append. now rewrite IH.
Qed.

(** X11.  Every address the request fetches starts with [BASE_URL],
    whatever the postal code and whatever locator the postal page or the
    stored row gave; the postal page is asked for at the postal-code
    endpoint. *)
Theorem scrape_fetches_under_base_url
  (w : World) (postalCode : string)
  (postal : list PostalRow.t) (region : list RegionRow.t) :
  let st := scrape w postalCode postal region in
  forall site url, In (HttpGet site url) (trace st) ->
  String.prefix BASE_URL url = true
  /\ (site = PostalPage ->
      String.prefix (BASE_URL ++ POSTAL_CODE_ENDPOINT) url = true).
Proof.
  cbv zeta. intros site url. paths; intros H.
  all: repeat (destruct H as [H | H];
               [ try discriminate H;
                 try (injection H as <- <-; split;
                      [ apply prefix_append
                      | intros Hs; try discriminate Hs;
                        rewrite <- string_app_assoc; apply prefix_append ]) | ]);
       try contradiction.
Qed.

Lemma scrape_fetches_under_base_url_witness :
  String.prefix BASE_URL ottawa_region_url = true.
Proof.
  apply (scrape_fetches_under_base_url ottawa_world "K1A0A1" [] []
           RegionPage ottawa_region_url).
  vm_compute. auto 20.
Defined.

(** ** The region lookup on its own *)

(** X12.  A region row that is stale is not served when the region page
    cannot be fetched: the lookup rejects with the fetch error, issues no
    upsert and leaves the region table as it was. *)
Theorem getEconomicRegionData_stale_and_unreachable_rejects
  (w : World) (regionName : string) (regionURL : jsval)
  (postal : list PostalRow.t) (region : list RegionRow.t)
  (econRow : RegionRow.t) :
  db_rejects w (SelectRegion regionName) = false ->
  hd_error (select_region regionName region) = Some econRow ->
  clock w 0 - RegionRow.date_retrieved econRow > THIRTY_DAYS_IN_MS ->
  http_get w (BASE_URL ++ template regionURL) = None ->
  let out := getEconomicRegionData w regionName regionURL (idle postal region) in
  fst out = Throw (HttpError (BASE_URL ++ template regionURL))
  /\ economic_region_data (snd out) = region
  /\ pending (snd out) = []
  /\ trace (snd out)
     = [ RegionLookup regionName regionURL;
         QueryIssued (SelectRegion regionName);
         QueryDone (SelectRegion regionName);
         ClockRead (clock w 0);
         HttpGet RegionPage (BASE_URL ++ template regionURL) ].
Proof.
  intros Hdb Hsel Hstale Hget. apply isDataStale_beyond in Hstale. cbv zeta.
  paths_of (getEconomicRegionData w regionName regionURL (idle postal region)).
  repeat split.
Qed.

Lemma getEconomicRegionData_stale_and_unreachable_rejects_witness :
  fst (getEconomicRegionData remote_down_world "Ottawa" (Str "region/35.aspx")
         (idle [] [stale_region_row]))
  = Throw (HttpError ottawa_region_url).
Proof.
  destruct (getEconomicRegionData_stale_and_unreachable_rejects
              remote_down_world "Ottawa" (Str "region/35.aspx") []
              [stale_region_row] stale_region_row) as (H & _).
  - reflexivity.
  - reflexivity.
  - vm_compute. reflexivity.
  - reflexivity.
  - exact H.
Defined.

(** X13.  A region page whose table has no rows is taken as it comes: the
    lookup resolves with an object that has a retrieval date and no other
    property, and upserts a row whose seven value columns are all NULL. *)
Theorem getEconomicRegionData_empty_table
  (w : World) (regionName : string) (regionURL : jsval)
  (postal : list PostalRow.t) (region : list RegionRow.t) (rpage : Page) :
  db_rejects w (SelectRegion regionName) = false ->
  hd_error (select_region regionName region) = None ->
  http_get w (BASE_URL ++ template regionURL) = Some rpage ->
  select_rows "regions" rpage = [] ->
  let out := getEconomicRegionData w regionName regionURL (idle postal region) in
  fst out = Return [("date_retrieved", Date (clock w 0))]
  /\ pending (snd out)
     = [ UpsertRegion (RegionRow.mk regionName None None None None None None
                         None (clock w 0)) ].
Proof.
  intros Hdb Hsel Hget Hrows. cbv zeta.
  assert (Hex : extract_region rpage = []).
  { unfold extract_region. now rewrite Hrows. }
  paths_of (getEconomicRegionData w regionName regionURL (idle postal region)).
  rewrite Hex. split; reflexivity.
Qed.

Lemma getEconomicRegionData_empty_table_witness :
  fst (getEconomicRegionData blank_region_world "Ottawa" (Str "region/35.aspx")
         (idle [] []))
  = Return [("date_retrieved", Date 1000)].
Proof.
  destruct (getEconomicRegionData_empty_table blank_region_world "Ottawa"
              (Str "region/35.aspx") [] [] []) as (H & _).
  - reflexivity.
  - reflexivity.
  - reflexivity.
  - reflexivity.
  - exact H.
Defined.

(** X14.  What the region lookup has scraped and upserted, it serves from
    the store the next time: after a lookup that found no fresh row and
    fetched the page, and once the connection has run the upsert, a lookup
    of the same name within thirty days of the stamp fetches nothing and
    resolves with the stored row, whose key is the name looked up and whose
    columns are the texts the first lookup resolved with. *)
Theorem getEconomicRegionData_refresh_then_cached
  (w1 w2 : World) (regionName : string) (regionURL regionURL2 : jsval)
  (postal : list PostalRow.t) (region : list RegionRow.t) (rpage : Page) :
  db_rejects w1 (SelectRegion regionName) = false ->
  region_miss (clock w1 0) (select_region regionName region) ->
  http_get w1 (BASE_URL ++ template regionURL) = Some rpage ->
  (forall row, db_rejects w1 (UpsertRegion row) = false) ->
  db_rejects w2 (SelectRegion regionName) = false ->
  clock w2 0 - clock w1 0 <= THIRTY_DAYS_IN_MS ->
  clock w2 0 - clock w1 1 <= THIRTY_DAYS_IN_MS ->
  let out1 := getEconomicRegionData w1 regionName regionURL (idle postal region) in
  let st1 := snd (settle w1 (snd out1)) in
  let out2 := getEconomicRegionData w2 regionName regionURL2
                (idle postal (economic_region_data st1)) in
  exists details row,
    fst out1 = Return details
    /\ fst out2 = Return (region_row_obj row)
    /\ (forall url, ~ In (HttpGet RegionPage url) (trace (snd out2)))
    /\ RegionRow.economic_region_name row = regionName
    /\ RegionRow.province row = sql_text (get_prop details "Province")
    /\ RegionRow.economic_region_code row
       = sql_text (get_prop details "EconomicRegionCode")
    /\ RegionRow.unemployment_rate row
       = sql_text (get_prop details "UnemploymentRate")
    /\ RegionRow.insured_hours_required row
       = sql_text (get_prop details "InsuredHoursRequired")
    /\ RegionRow.min_weeks_payable row
       = sql_text (get_prop details "MinWeeksPayable")
    /\ RegionRow.max_weeks_payable row
       = sql_text (get_prop details "MaxWeeksPayable")
    /\ RegionRow.best_weeks_required row
       = sql_text (get_prop details "BestWeeksRequired")
    /\ Date (RegionRow.date_retrieved row) = get_prop details "date_retrieved".
Proof.
  intros Hdb1 Hmiss Hget Hup Hdb2 Hf0 Hf1. cbv zeta.
  assert (Hcached : forall row,
    RegionRow.economic_region_name row = regionName ->
    clock w2 0 - RegionRow.date_retrieved row <= THIRTY_DAYS_IN_MS ->
    let out2 := getEconomicRegionData w2 regionName regionURL2
                  (idle postal (upsert_region row region)) in
    fst out2 = Return (region_row_obj row)
    /\ (forall url, ~ In (HttpGet RegionPage url) (trace (snd out2)))).
  { intros row Hkey Hage. cbv zeta.
    assert (Hsel : hd_error (select_region regionName (upsert_region row region))
                   = Some row).
    { rewrite upsert_region_keyed, <- Hkey.
      exact (select_by_upsert_first _ _ _ set_region_all row region). }
    apply isDataStale_within in Hage.
    paths_of (getEconomicRegionData w2 regionName regionURL2
                (idle postal (upsert_region row region))).
    split; [reflexivity |]. intros url H; in_log H. }
  miss_cases Hmiss.
  - remember (getEconomicRegionData w1 regionName regionURL (idle postal region))
      as out1 eqn:E1.
    revert E1. unfold_handler. cbn. repeat branch. intros ->. cbn.
    rewrite (Hup _). cbn.
    match goal with
    | |- context [upsert_region ?r region] =>
        destruct (Hcached r eq_refl Hf1) as [Hc1 Hc2]
    end.
    do 2 eexists. split; [reflexivity |]. split; [exact Hc1 |].
    split; [exact Hc2 |]. cbn. rewrite get_set_prop_same. repeat split.
  - remember (getEconomicRegionData w1 regionName regionURL (idle postal region))
      as out1 eqn:E1.
    revert E1. unfold_handler. cbn. repeat branch. intros ->. cbn.
    rewrite (Hup _). cbn.
    match goal with
    | |- context [upsert_region ?r region] =>
        destruct (Hcached r eq_refl Hf0) as [Hc1 Hc2]
    end.
    do 2 eexists. split; [reflexivity |]. split; [exact Hc1 |].
    split; [exact Hc2 |]. cbn. rewrite get_set_prop_same. repeat split.
Qed.

Lemma getEconomicRegionData_refresh_then_cached_witness :
  let out1 := getEconomicRegionData ottawa_world "Ottawa" (Str "region/35.aspx")
                (idle [] []) in
  let st1 := snd (settle ottawa_world (snd out1)) in
  exists row,
    fst (getEconomicRegionData remote_down_world "Ottawa" Undefined
           (idle [] (economic_region_data st1)))
    = Return (region_row_obj row)
    /\ RegionRow.economic_region_name row = "Ottawa".
Proof.
  cbv zeta.
  destruct (getEconomicRegionData_refresh_then_cached ottawa_world
              remote_down_world "Ottawa" (Str "region/35.aspx") Undefined
              [] [] ottawa_region_page)
    as (details & row & _ & H2 & _ & H4 & _).
  - reflexivity.
  - exact I.
  - reflexivity.
  - reflexivity.
  - reflexivity.
  - vm_compute. discriminate.
  - vm_compute. discriminate.
  - exists row. split; [exact H2 | exact H4].
Defined.

(** ** Pages that are not as expected *)

(** X15.  A postal page without a data row is not noticed: the request
    upserts, under its key, a row of four empty names and a NULL locator,
    calls the region lookup with the empty name and [undefined], and any
    region page it then fetches is the one at [BASE_URL] followed by the
    word "undefined". *)
Theorem scrape_postal_page_without_rows
  (w : World) (postalCode : string)
  (postal : list PostalRow.t) (region : list RegionRow.t) (page : Page) :
  db_rejects w (SelectPostal postalCode) = false ->
  postal_miss (clock w 0) (select_postal postalCode postal) ->
  http_get w (BASE_URL ++ POSTAL_CODE_ENDPOINT ++ replace_space postalCode)
    = Some page ->
  select_rows "table" page = [] ->
  let st := scrape w postalCode postal region in
  exists now,
    In (QueryIssued (UpsertPostal (PostalRow.mk postalCode "" "" "" "" None now)))
       (trace st)
    /\ In (RegionLookup "" Undefined) (trace st)
    /\ (forall url, In (HttpGet RegionPage url) (trace st) ->
          url = BASE_URL ++ "undefined")
    /\ (db_rejects w (UpsertPostal (PostalRow.mk postalCode "" "" "" "" None now))
        = false ->
        postal_code_data st
        = upsert_postal (PostalRow.mk postalCode "" "" "" "" None now) postal).
Proof.
  intros Hdb Hmiss Hget Hrows. cbv zeta.
  miss_cases Hmiss;
    [ exists (clock w 1) | exists (clock w 0) ];
    paths; rewrite ?Hrows in *; cbn in *.
  all: split; [auto 20 |]; split; [auto 20 |]; split;
       [ intros url H; in_log H | intros Hacc; try congruence; reflexivity ].
Qed.

Lemma scrape_postal_page_without_rows_witness :
  In (RegionLookup "" Undefined)
     (trace (scrape blank_postal_world "K1A0A1" [] [])).
Proof.
  destruct (scrape_postal_page_without_rows blank_postal_world "K1A0A1" [] [] [])
    as (now & _ & H & _).
  - reflexivity.
  - exact I.
  - reflexivity.
  - reflexivity.
  - exact H.
Defined.

Lemma cell_text_at_app (cells extra : Row) (i : nat) :
  (i < length cells)%nat ->
  cell_text_at (cells ++ extra)%list i = cell_text_at cells i.
Proof.
  intros H. unfold cell_text_at. now rewrite nth_error_app1.
Qed.

(** X16.  The extractions go by position.  A cell that the row does not
    have reads as the empty string, its anchor text as the empty string and
    its link as [undefined]; of a region row only the first eight cells
    count, and the object made of a row always has the same eight
    properties in the same order. *)
Theorem extraction_goes_by_position :
  (forall (cells : Row) i, (length cells <= i)%nat ->
     cell_text_at cells i = ""
     /\ anchor_text_at cells i = ""
     /\ anchor_href_at cells i = Undefined)
  /\ (forall cells extra : Row, (8 <= length cells)%nat ->
        region_fields (cells ++ extra)%list = region_fields cells)
  /\ (forall cells : Row,
        keys (region_fields cells)
        = [ "Province"; "EconomicRegionCode"; "EconomicRegionName";
            "UnemploymentRate"; "InsuredHoursRequired"; "MinWeeksPayable";
            "MaxWeeksPayable"; "BestWeeksRequired" ]).
Proof.
  split; [| split].
  - intros cells i H. apply nth_error_None in H.
    unfold cell_text_at, anchor_text_at, anchor_href_at. rewrite H. auto.
  - intros cells extra H. unfold region_fields, region_row_step. cbn.
    rewrite !cell_text_at_app by lia. reflexivity.
  - intros cells. reflexivity.
Qed.

Lemma extraction_goes_by_position_witness :
  cell_text_at ottawa_row 8 = ""
  /\ region_fields (ottawa_row ++ [td "more"])%list = region_fields ottawa_row.
Proof.
  destruct extraction_goes_by_position as (H1 & H2 & _).
  split.
  - apply (H1 ottawa_row 8%nat). vm_compute. auto.
  - apply H2. vm_compute. auto.
Defined.

(** ** The response and the region upsert *)

(** X17.  The response does not wait for the region upsert: whenever a
    request issues one, it has been answered with a 200 before the store
    gives its verdict on that upsert, which is the last thing to happen or,
    if the verdict is a refusal, the last but one. *)
Theorem scrape_answers_before_region_upsert_runs
  (w : World) (postalCode : string)
  (postal : list PostalRow.t) (region : list RegionRow.t) :
  let st := scrape w postalCode postal region in
  forall row, In (QueryIssued (UpsertRegion row)) (trace st) ->
  exists r pre,
    response st = Some r
    /\ status r = 200
    /\ (trace st = (pre ++ [Responded r; QueryDone (UpsertRegion row)])%list
        \/ trace st
           = (pre ++ [ Responded r; QueryFailed (UpsertRegion row);
                       UnhandledRejection (DbError (UpsertRegion row)) ])%list).
Proof.
  cbv zeta. intros row. paths; intros H.
  all: repeat (destruct H as [H | H]; [try discriminate H |]);
       try contradiction.
  all: injection H as <-; eexists.
  all: match goal with
       | |- exists pre, _ /\ _ /\ (?l = _ \/ _) =>
           first
             [ exists (firstn (length l - 2) l); split; [reflexivity |];
               split; [reflexivity |]; left; reflexivity
             | exists (firstn (length l - 3) l); split; [reflexivity |];
               split; [reflexivity |]; right; reflexivity ]
       end.
Qed.

Lemma scrape_answers_before_region_upsert_runs_witness :
  exists r, response (scrape ottawa_world "K1A0A1" [] []) = Some r
            /\ status r = 200.
Proof.
  destruct (scrape_answers_before_region_upsert_runs ottawa_world "K1A0A1" [] []
              (RegionRow.mk "Ottawa" (Some "ON") (Some "3520") (Some "5.6")
                 (Some "420") (Some "14") (Some "45") (Some "14-22") 1001))
    as (r & pre & H1 & H2 & _).
  - vm_compute. auto 20.
  - exists r. split; assumption.
Defined.
